(** * Embedding of the local recipe parser of pill/recipes

    The parser lives in two places:
    - [parseIngredients], [parseInstructions] and [parseRecipeFromComment]
      of the Reddit comment script (src/unnamed/part_004), the
      unstructured-comment variant;
    - [parseStrombergRecipeLocal] of src/src/utils/shared_parser.ts, the
      pre-segmented-array variant.

    Text is modelled as JavaScript has it: a string is a list of UTF-16
    code units, each an [N].  The regular expressions of the code are
    embedded as syntax trees and run by a backtracking matcher that
    follows the ECMAScript matching algorithm: leftmost match, greedy and
    lazy repetition, alternation tried left to right, the empty-iteration
    check of repetition, capture groups, [^], [$] and [\b]. *)

From Stdlib Require Import List String Ascii Arith NArith Bool Lia.
Import ListNotations.
Open Scope list_scope.

(** ** JavaScript strings *)
Module JS.

Definition char := N.
Definition jstr := list char.

(** A Rocq string literal read as a JavaScript string (ASCII only). *)
Definition str (s : string) : jstr := map N_of_ascii (list_ascii_of_string s).

Definition c (a : ascii) : char := N_of_ascii a.

Local Open Scope N_scope.

(** ECMAScript WhiteSpace and LineTerminator code units: the set of [\s]
    and of [String.prototype.trim]. *)
Definition is_space (x : char) : bool :=
  match x with
  | 9 | 10 | 11 | 12 | 13 | 32 | 160 | 5760 | 8232 | 8233 | 8239 | 8287
  | 12288 | 65279 => true
  | _ => (8192 <=? x)%N && (x <=? 8202)%N
  end.

Definition is_line_term (x : char) : bool :=
  match x with 10 | 13 | 8232 | 8233 => true | _ => false end.

Definition is_digit (x : char) : bool := (48 <=? x)%N && (x <=? 57)%N.
Definition is_upper (x : char) : bool := (65 <=? x)%N && (x <=? 90)%N.
Definition is_lower (x : char) : bool := (97 <=? x)%N && (x <=? 122)%N.

(** [\w], the characters that [\b] looks at. *)
Definition is_word (x : char) : bool :=
  is_digit x || is_upper x || is_lower x || N.eqb x 95.

(** [toLowerCase] and [toUpperCase], on the ASCII letters; every other
    code unit is left as it is (exact for text whose letters are ASCII). *)
Definition lower (x : char) : char := if is_upper x then (x + 32)%N else x.
Definition upper (x : char) : char := if is_lower x then (x - 32)%N else x.

Definition toLowerCase (s : jstr) : jstr := map lower s.

Local Close Scope N_scope.

Fixpoint trim_start (s : jstr) : jstr :=
  match s with
  | x :: s' => if is_space x then trim_start s' else s
  | [] => []
  end.

Definition trim_end (s : jstr) : jstr := rev (trim_start (rev s)).

(** [String.prototype.trim]. *)
Definition trim (s : jstr) : jstr := trim_end (trim_start s).

(** [s.substring(i, j)] for [i <= j]. *)
Definition sub (s : jstr) (i j : nat) : jstr := firstn (j - i) (skipn i s).

Fixpoint prefixb (p s : jstr) : bool :=
  match p, s with
  | [], _ => true
  | x :: p', y :: s' => N.eqb x y && prefixb p' s'
  | _ :: _, [] => false
  end.

(** [s.indexOf(p)]. *)
Fixpoint index_of (p s : jstr) : option nat :=
  if prefixb p s then Some 0
  else match s with
       | [] => None
       | _ :: s' => option_map S (index_of p s')
       end.

(** [s.includes(p)]. *)
Definition includes (s p : jstr) : bool :=
  match index_of p s with Some _ => true | None => false end.

(** [s.startsWith(p)]. *)
Definition startsWith (s p : jstr) : bool := prefixb p s.

(** [s.replace(p, r)] with a string pattern [p]: the first occurrence. *)
Definition replace_str (s p r : jstr) : jstr :=
  match index_of p s with
  | Some k => firstn k s ++ r ++ skipn (k + List.length p) s
  | None => s
  end.

(** [s.split(sep)] with a one-character separator. *)
Fixpoint split_char (sep : char) (s : jstr) : list jstr :=
  match s with
  | [] => [[]]
  | x :: s' =>
      if N.eqb x sep then [] :: split_char sep s'
      else match split_char sep s' with
           | w :: ws => (x :: w) :: ws
           | [] => [[x]]
           end
  end.

(** [parts.join(sep)]. *)
Fixpoint join (sep : jstr) (ps : list jstr) : jstr :=
  match ps with
  | [] => []
  | [p] => p
  | p :: ps' => p ++ sep ++ join sep ps'
  end.

End JS.

Import JS.

(** ** Regular expressions *)
Module Regex.

Inductive regex : Type :=
| Eps
| Chr (p : char -> bool)
| Seq (r1 r2 : regex)
| Alt (r1 r2 : regex)
| Star (greedy : bool) (r : regex)
| Group (n : nat) (r : regex)
| Bol
| Eol
| WordB.

(** Captures: group number and the span it matched, latest first. *)
Definition caps := list (nat * (nat * nat)).

Section Matcher.
Variable inp : jstr.
(** The [i] flag. *)
Variable ic : bool.

(** A character class under the [i] flag compares canonical (case-folded)
    code units; for the ASCII classes of the code this is the test below. *)
Definition cmatch (p : char -> bool) (x : char) : bool :=
  p x || (ic && (p (lower x) || p (upper x))).

Definition word_before (i : nat) : bool :=
  match i with
  | O => false
  | S i' => match nth_error inp i' with Some x => is_word x | None => false end
  end.

Definition word_at (i : nat) : bool :=
  match nth_error inp i with Some x => is_word x | None => false end.

(** [m r k i cs]: match [r] at position [i], then the continuation [k]. *)
Fixpoint m (r : regex) (k : nat -> caps -> option (nat * caps))
    (i : nat) (cs : caps) {struct r} : option (nat * caps) :=
  match r with
  | Eps => k i cs
  | Chr p =>
      match nth_error inp i with
      | Some x => if cmatch p x then k (S i) cs else None
      | None => None
      end
  | Seq r1 r2 => m r1 (m r2 k) i cs
  | Alt r1 r2 =>
      match m r1 k i cs with
      | Some res => Some res
      | None => m r2 k i cs
      end
  | Star g r1 =>
      let fix go (n : nat) (i : nat) (cs : caps) {struct n} :=
        match n with
        | O => k i cs
        | S n' =>
            if g then
              match m r1 (fun j cs' => if Nat.ltb i j then go n' j cs' else None) i cs with
              | Some res => Some res
              | None => k i cs
              end
            else
              match k i cs with
              | Some res => Some res
              | None => m r1 (fun j cs' => if Nat.ltb i j then go n' j cs' else None) i cs
              end
        end in
      go (S (List.length inp - i)) i cs
  | Group n r1 => m r1 (fun j cs' => k j ((n, (i, j)) :: cs')) i cs
  | Bol => if Nat.eqb i 0 then k i cs else None
  | Eol => if Nat.eqb i (List.length inp) then k i cs else None
  | WordB => if xorb (word_before i) (word_at i) then k i cs else None
  end.

Definition match_at (r : regex) (i : nat) : option (nat * caps) :=
  m r (fun j cs => Some (j, cs)) i [].

Record mtch := { m_start : nat; m_end : nat; m_caps : caps }.

Fixpoint search_from (r : regex) (i fuel : nat) : option mtch :=
  match fuel with
  | O => None
  | S fuel' =>
      match match_at r i with
      | Some (j, cs) => Some {| m_start := i; m_end := j; m_caps := cs |}
      | None => search_from r (S i) fuel'
      end
  end.

End Matcher.

(** [s.match(re)] for a regex without the [g] flag. *)
Definition exec (ic : bool) (r : regex) (s : jstr) : option mtch :=
  search_from s ic r 0 (S (List.length s)).

(** [re.test(s)]. *)
Definition test (ic : bool) (r : regex) (s : jstr) : bool :=
  match exec ic r s with Some _ => true | None => false end.

(** [match[0]]. *)
Definition whole (s : jstr) (mt : mtch) : jstr := sub s (m_start mt) (m_end mt).

(** [match[n]]; [None] is [undefined]. *)
Definition group (s : jstr) (mt : mtch) (n : nat) : option jstr :=
  match find (fun p => Nat.eqb (fst p) n) (m_caps mt) with
  | Some (_, (i, j)) => Some (sub s i j)
  | None => None
  end.

(** [s.replace(re, f)] for a regex without the [g] flag. *)
Definition replace1 (ic : bool) (r : regex) (s : jstr) (f : mtch -> jstr) : jstr :=
  match exec ic r s with
  | Some mt => firstn (m_start mt) s ++ f mt ++ skipn (m_end mt) s
  | None => s
  end.

(** [s.replace(re, f)] for a regex with the [g] flag: every match from
    position [i] on, an empty match advancing the search by one. *)
Fixpoint replace_all_from (ic : bool) (r : regex) (s : jstr) (f : mtch -> jstr)
    (i fuel : nat) : jstr :=
  match fuel with
  | O => skipn i s
  | S fuel' =>
      match search_from s ic r i (S (List.length s - i)) with
      | None => skipn i s
      | Some mt =>
          sub s i (m_start mt) ++ f mt ++
          (if Nat.eqb (m_end mt) (m_start mt) then
             match nth_error s (m_end mt) with
             | Some x => x :: replace_all_from ic r s f (S (m_end mt)) fuel'
             | None => []
             end
           else replace_all_from ic r s f (m_end mt) fuel')
      end
  end.

Definition replace_all (ic : bool) (r : regex) (s : jstr) (f : mtch -> jstr) : jstr :=
  replace_all_from ic r s f 0 (S (S (List.length s))).

(** Replacement strings [''] and ['$1']. *)
Definition by_empty (_ : mtch) : jstr := [].
Definition by_group1 (s : jstr) (mt : mtch) : jstr :=
  match group s mt 1 with Some g => g | None => [] end.

(** Pattern building blocks. *)
Definition ch (a : ascii) : regex := Chr (N.eqb (JS.c a)).
Definition digit : regex := Chr is_digit.
Definition space : regex := Chr is_space.
(** [.]: any code unit but a line terminator. *)
Definition dot : regex := Chr (fun x => negb (is_line_term x)).
Definition any_of (s : string) : regex :=
  Chr (fun x => existsb (N.eqb x) (str s)).
Definition none_of (s : string) : regex :=
  Chr (fun x => negb (existsb (N.eqb x) (str s))).
Definition star (r : regex) : regex := Star true r.
Definition lazy_star (r : regex) : regex := Star false r.
Definition plus (r : regex) : regex := Seq r (star r).
Definition opt (r : regex) : regex := Alt r Eps.

Fixpoint seqs (rs : list regex) : regex :=
  match rs with
  | [] => Eps
  | [r] => r
  | r :: rs' => Seq r (seqs rs')
  end.

Fixpoint alts (rs : list regex) : regex :=
  match rs with
  | [] => Chr (fun _ => false)
  | [r] => r
  | r :: rs' => Alt r (alts rs')
  end.

(** A literal word of the pattern source. *)
Definition lit_of (w : jstr) : regex :=
  fold_right (fun x r => Seq (Chr (N.eqb x)) r) Eps w.
Definition lit (s : string) : regex := lit_of (str s).

(** A string spliced into a pattern source by [new RegExp(...)]: [.] is
    then the any-character class. *)
Definition pat_of (s : jstr) : regex :=
  seqs (map (fun x => if N.eqb x 46 then dot else Chr (N.eqb x)) s).

End Regex.

Import Regex.

From Stdlib Require Import QArith.
Close Scope Q_scope.

(** [parseFloat] on the text a number pattern matched: digits, an
    optional point and digits.  The value is kept as an exact rational
    (rounding to a double is not modelled); [None] is [NaN]. *)
Module Num.

Fixpoint digits_val (acc : Z) (s : jstr) : Z * nat * jstr :=
  match s with
  | x :: s' =>
      if is_digit x then
        let '(v, n, rest) := digits_val (acc * 10 + Z.of_N (x - 48))%Z s' in (v, S n, rest)
      else (acc, O, s)
  | [] => (acc, O, [])
  end.

Definition parseFloat (s : jstr) : option Q :=
  let s := trim_start s in
  let '(ip, ni, rest) := digits_val 0%Z s in
  match rest with
  | x :: rest' =>
      if N.eqb x 46 then
        let '(fp, nf, _) := digits_val ip rest' in
        if Nat.eqb (ni + nf) 0 then None
        else Some (Qred (Qmake fp (Pos.of_nat (Nat.pow 10 nf))))
      else if Nat.eqb ni 0 then None else Some (Qmake ip 1)
  | [] => if Nat.eqb ni 0 then None else Some (Qmake ip 1)
  end.

(** [parseInt] on a run of digits. *)
Definition parseInt (s : jstr) : option Z :=
  let '(v, n, _) := digits_val 0%Z (trim_start s) in
  if Nat.eqb n 0 then None else Some v.

End Num.

(** ** Ingredient tokenizer: [parseIngredients] of the comment script *)
Module Tokenizer.

(** [number | string] *)
Inductive Quantity : Type :=
| QNum (q : Q)
| QStr (s : jstr)
(** [NaN] *)
| QNaN.

(** [Ingredient]; an optional field left unset is [None]. *)
Record Ingredient : Type := {
  name : jstr;
  quantity : option Quantity;
  unit : option jstr;
  notes : option jstr
}.

(** [units], in the order of the source. *)
Definition units : list jstr := map str [
  "cup"; "cups"; "c"; "c.";
  "tablespoon"; "tablespoons"; "tbsp"; "tbsp."; "tbs"; "tbs."; "T";
  "teaspoon"; "teaspoons"; "tsp"; "tsp."; "t";
  "pound"; "pounds"; "lb"; "lbs"; "lb."; "lbs.";
  "ounce"; "ounces"; "oz"; "oz.";
  "gram"; "grams"; "g"; "g.";
  "kilogram"; "kilograms"; "kg"; "kg.";
  "milliliter"; "milliliters"; "ml"; "ml.";
  "liter"; "liters"; "l"; "l.";
  "quart"; "quarts"; "qt"; "qt.";
  "pint"; "pints"; "pt"; "pt.";
  "gallon"; "gallons"; "gal"; "gal.";
  "pinch"; "dash"; "handful";
  "can"; "cans"; "jar"; "jars"; "package"; "packages"; "pkg"; "box"; "boxes";
  "clove"; "cloves"; "piece"; "pieces"; "slice"; "slices";
  "stick"; "sticks"; "head"; "heads"; "bunch"; "bunches"]%string.

(** [\d+\.?\d*] *)
Definition decimal : regex := seqs [plus digit; opt (lit "."); star digit].

(** [fractionPattern = /(\d+\/\d+|\d+\s+\d+\/\d+)/] *)
Definition fractionPattern : regex :=
  Group 1 (Alt (seqs [plus digit; lit "/"; plus digit])
               (seqs [plus digit; plus space; plus digit; lit "/"; plus digit])).

(** [numberPattern = /(\d+\.?\d*|\d*\.?\d+)/] *)
Definition numberPattern : regex :=
  Group 1 (Alt decimal (seqs [star digit; opt (lit "."); plus digit])).

(** [rangePattern = /(\d+\.?\d* )\s*-\s*(\d+\.?\d* )/] (a star before a
    closing parenthesis is written with a space inside comments) *)
Definition rangePattern : regex :=
  seqs [Group 1 decimal; star space; lit "-"; star space; Group 2 decimal].

(** [/^(ingredient|instruction|direction|step|method|prep|cook)/i] *)
Definition headerPattern : regex :=
  Seq Bol (Group 1 (alts (map lit ["ingredient"; "instruction"; "direction";
                                   "step"; "method"; "prep"; "cook"]%string))).

(** [/^[\d\*\-\•\◦\→]+\.?\s*/]: digits, [*], [-], U+2022, U+25E6, U+2192. *)
Definition bulletPattern : regex :=
  seqs [Bol;
        plus (Chr (fun x => is_digit x || existsb (N.eqb x) [42; 45; 8226; 9702; 8594]%N));
        opt (lit "."); star space].

(** [new RegExp(`^${u}\\b`, 'i')] *)
Definition unitRegex (u : jstr) : regex := seqs [Bol; pat_of u; WordB].

(** [/^[s\.]?\s*/] *)
Definition pluralPattern : regex := seqs [Bol; opt (any_of "s."); star space].

(** [/\(([^)]+)\)/] *)
Definition notesPattern : regex :=
  seqs [lit "("; Group 1 (plus (none_of ")")); lit ")"].

Definition dash : jstr := str "-".

(** The quantity block: range, else fraction, else a number at the start. *)
Definition extract_quantity (cleaned : jstr) : option Quantity * jstr :=
  match exec false rangePattern cleaned with
  | Some rangeMatch =>
      let g1 := match group cleaned rangeMatch 1 with Some g => g | None => [] end in
      let g2 := match group cleaned rangeMatch 2 with Some g => g | None => [] end in
      (Some (QStr (g1 ++ dash ++ g2)),
       trim (replace_str cleaned (whole cleaned rangeMatch) []))
  | None =>
      match exec false fractionPattern cleaned with
      | Some fractionMatch =>
          (Some (QStr (trim (whole cleaned fractionMatch))),
           trim (replace_str cleaned (whole cleaned fractionMatch) []))
      | None =>
          match exec false (Seq Bol numberPattern) cleaned with
          | Some numberMatch =>
              match Num.parseFloat (whole cleaned numberMatch) with
              | Some num =>
                  (Some (QNum num), trim (replace_str cleaned (whole cleaned numberMatch) []))
              | None => (None, cleaned)
              end
          | None => (None, cleaned)
          end
      end
  end.

(** The unit loop: the first unit of [us] that matches, then the plural
    [s] or period and the whitespace after it. *)
Fixpoint extract_unit_in (us : list jstr) (cleaned : jstr) : option jstr * jstr :=
  match us with
  | [] => (None, cleaned)
  | u :: us' =>
      if test true (unitRegex u) (toLowerCase cleaned) then
        (Some u, replace1 false pluralPattern (trim (skipn (List.length u) cleaned)) by_empty)
      else extract_unit_in us' cleaned
  end.

Definition extract_unit (cleaned : jstr) : option jstr * jstr :=
  extract_unit_in units cleaned.

(** The notes block: the first parenthesized group. *)
Definition extract_notes (cleaned : jstr) : option jstr * jstr :=
  match exec false notesPattern cleaned with
  | Some notesMatch =>
      (group cleaned notesMatch 1, trim (replace_str cleaned (whole cleaned notesMatch) []))
  | None => (None, cleaned)
  end.

(** The body of the [for] loop of [parseIngredients] on one line: [None]
    when the line is skipped ([continue]) or has no name. *)
Definition parse_line (line : jstr) : option Ingredient :=
  let trimmed := trim line in
  if Nat.ltb (List.length trimmed) 3 then None
  else if test true headerPattern trimmed then None
  else
    let cleaned := replace1 false bulletPattern trimmed by_empty in
    let '(quantity, cleaned) := extract_quantity cleaned in
    let '(unit, cleaned) := extract_unit cleaned in
    let '(notes, cleaned) := extract_notes cleaned in
    let name := trim cleaned in
    match name with
    | [] => None
    | _ => Some {| name := name; quantity := quantity; unit := unit; notes := notes |}
    end.

(** The keywords of the header filter of [parseIngredients]. *)
Definition skipped_words : list string :=
  ["ingredient"; "instruction"; "direction"; "step"; "method"; "prep"; "cook"]%string.

(** The working text of a line once its bullet, number or asterisk prefix
    is removed. *)
Definition strip_line (line : jstr) : jstr := replace1 false bulletPattern (trim line) by_empty.

(** The extraction steps in the order the loop body runs them:
    quantity, unit, then notes; the last component is the name before the
    empty-name check. *)
Definition tokenizer_steps (line : jstr) : option Quantity * option jstr * option jstr * jstr :=
  let (quantity, c1) := extract_quantity (strip_line line) in
  let (unit, c2) := extract_unit c1 in
  let (notes, c3) := extract_notes c2 in
  (quantity, unit, notes, trim c3).

(** [parseIngredients(text)]. *)
Definition parseIngredients (text : jstr) : list Ingredient :=
  flat_map (fun line => match parse_line line with Some i => [i] | None => [] end)
           (split_char 10%N text).

End Tokenizer.

(** ** Instruction cleaner: [parseInstructions] of the comment script *)
Module Cleaner.

(** [/^\d+\.?\d*\s*(cup|tbsp|tsp|oz|lb|gram|ml)/i] *)
Definition measurePattern : regex :=
  seqs [Bol; plus digit; opt (lit "."); star digit; star space;
        Group 1 (alts (map lit ["cup"; "tbsp"; "tsp"; "oz"; "lb"; "gram"; "ml"]%string))].

(** [/^(step\s+)?\d+[\.\)\:]?\s*/i] *)
Definition stepPattern : regex :=
  seqs [Bol; opt (Group 1 (Seq (lit "step") (plus space))); plus digit;
        opt (any_of ".):"); star space].

(** [/^[\*\-\•\◦\→]+\s*/] *)
Definition bulletPattern : regex :=
  seqs [Bol; plus (Chr (fun x => existsb (N.eqb x) [42; 45; 8226; 9702; 8594]%N));
        star space].

(** [/\*\*(.*?)\*\*/g], [/\*(.*?)\*/g], [/~~(.*?)~~/g] *)
Definition boldPattern : regex := seqs [lit "**"; Group 1 (lazy_star dot); lit "**"].
Definition italicPattern : regex := seqs [lit "*"; Group 1 (lazy_star dot); lit "*"].
Definition strikePattern : regex := seqs [lit "~~"; Group 1 (lazy_star dot); lit "~~"].

(** [/^\*+|\*+$/g] *)
Definition edgeStarsPattern : regex :=
  Alt (Seq Bol (plus (lit "*"))) (Seq (plus (lit "*")) Eol).

(** The cleaning chain applied to a trimmed line. *)
Definition clean (trimmed : jstr) : jstr :=
  let cleaned := replace1 true stepPattern trimmed by_empty in
  let cleaned := replace1 false bulletPattern cleaned by_empty in
  let cleaned := replace_all false boldPattern cleaned (by_group1 cleaned) in
  let cleaned := replace_all false italicPattern cleaned (by_group1 cleaned) in
  let cleaned := replace_all false strikePattern cleaned (by_group1 cleaned) in
  let cleaned := replace_all false edgeStarsPattern cleaned by_empty in
  trim cleaned.

(** The body of the [for] loop of [parseInstructions] on one line. *)
Definition parse_line (line : jstr) : option jstr :=
  let trimmed := trim line in
  if Nat.ltb (List.length trimmed) 10 then None
  else if test true measurePattern trimmed then None
  else
    let cleaned := clean trimmed in
    if Nat.ltb 10 (List.length cleaned) then Some cleaned else None.

(** [parseInstructions(text)]. *)
Definition parseInstructions (text : jstr) : list jstr :=
  flat_map (fun line => match parse_line line with Some s => [s] | None => [] end)
           (split_char 10%N text).

End Cleaner.

(** ** Segmenter: the section loop of [parseRecipeFromComment] *)
Module Segmenter.

Inductive section : Type := Ingredients | Instructions | General.

Record sections : Type := {
  s_ingredients : list jstr;
  s_instructions : list jstr;
  s_general : list jstr
}.

Definition empty_sections : sections :=
  {| s_ingredients := []; s_instructions := []; s_general := [] |}.

(** [/[\*\#\-\_\:]/g] *)
Definition markPattern : regex := any_of "*#-_:".

(** [lower.replace(/[\*\#\-\_\:]/g, '').trim()] with
    [lower = line.toLowerCase().trim()]. *)
Definition header_text (line : jstr) : jstr :=
  trim (replace_all false markPattern (trim (toLowerCase line)) by_empty).

(** [/^(ingredient|what you need|you('ll)? need|materials|items)/i] *)
Definition ingredientsHeader : regex :=
  Seq Bol (Group 1 (alts [lit "ingredient"; lit "what you need";
                          seqs [lit "you"; opt (Group 2 (lit "'ll")); lit " need"];
                          lit "materials"; lit "items"])).

(** [/^(instruction|direction|step|method|how to|preparation|prep|procedure)/i] *)
Definition instructionsHeader : regex :=
  Seq Bol (Group 1 (alts (map lit ["instruction"; "direction"; "step"; "method";
                                   "how to"; "preparation"; "prep"; "procedure"]%string))).

(** One iteration of the header-based pass. *)
Definition header_step (st : section * sections) (line : jstr) : section * sections :=
  let '(current, s) := st in
  let cleaned := header_text line in
  if test true ingredientsHeader cleaned then (Ingredients, s)
  else if test true instructionsHeader cleaned then (Instructions, s)
  else match current with
       | Ingredients => (current, {| s_ingredients := s_ingredients s ++ [line];
                                     s_instructions := s_instructions s;
                                     s_general := s_general s |})
       | Instructions => (current, {| s_ingredients := s_ingredients s;
                                      s_instructions := s_instructions s ++ [line];
                                      s_general := s_general s |})
       | General => (current, {| s_ingredients := s_ingredients s;
                                 s_instructions := s_instructions s;
                                 s_general := s_general s ++ [line] |})
       end.

Definition header_pass (lines : list jstr) : sections :=
  snd (fold_left header_step lines (General, empty_sections)).

(** Whether the header-based pass takes a line as a section header. *)
Definition is_header (line : jstr) : bool :=
  test true ingredientsHeader (header_text line) ||
  test true instructionsHeader (header_text line).

(** How many lines the two explicit buckets hold. *)
Definition content_count (st : section * sections) : nat :=
  List.length (s_ingredients (snd st)) + List.length (s_instructions (snd st)).

(** [/\d+\.?\d*\s*(cup|tbsp|tsp|oz|lb|gram|ml|c\.|tsp\.|tbsp\.)/i] *)
Definition measurementPattern : regex :=
  seqs [plus digit; opt (lit "."); star digit; star space;
        Group 1 (alts (map lit ["cup"; "tbsp"; "tsp"; "oz"; "lb"; "gram"; "ml";
                                "c."; "tsp."; "tbsp."]%string))].

(** [/^(mix|stir|add|pour|bake|cook|heat|boil|fry|blend|combine|place|put|remove|serve)/i] *)
Definition verbPattern : regex :=
  Seq Bol (Group 1 (alts (map lit ["mix"; "stir"; "add"; "pour"; "bake"; "cook"; "heat";
                                   "boil"; "fry"; "blend"; "combine"; "place"; "put";
                                   "remove"; "serve"]%string))).

(** One iteration of the content-based pass. *)
Definition fallback_step (s : sections) (line : jstr) : sections :=
  let trimmed := trim line in
  if test true measurementPattern trimmed then
    {| s_ingredients := s_ingredients s ++ [line];
       s_instructions := s_instructions s; s_general := s_general s |}
  else if test true verbPattern trimmed then
    {| s_ingredients := s_ingredients s;
       s_instructions := s_instructions s ++ [line]; s_general := s_general s |}
  else s.

Definition fallback_pass (lines : list jstr) (s : sections) : sections :=
  fold_left fallback_step lines s.

(** Whether the content-based pass runs after the header-based pass. *)
Definition needs_fallback (s : sections) : bool :=
  match s_ingredients s, s_instructions s with
  | [], [] => true
  | _, _ => false
  end.

Definition segment (comment : jstr) : sections :=
  let lines := split_char 10%N comment in
  let s := header_pass lines in
  if needs_fallback s then fallback_pass lines s else s.

(** How many lines the three buckets hold. *)
Definition bucket_total (s : sections) : nat :=
  List.length (s_ingredients s) + List.length (s_instructions s) + List.length (s_general s).

End Segmenter.

(** ** Metadata inferencer and assembler of the comment variant *)
Module Comment.

Import Tokenizer.

(** [RecipeData], over the ingredient type of the variant. *)
Record RecipeData (I : Type) : Type := {
  title : jstr;
  description : option jstr;
  ingredients : list I;
  instructions : list jstr;
  prepTime : option jstr;
  cookTime : option jstr;
  totalTime : option jstr;
  servings : option Quantity;
  difficulty : option jstr;
  cuisine : option jstr;
  course : option jstr;
  mealType : option jstr;
  dietaryTags : option (list jstr)
}.

Arguments title {I}. Arguments description {I}. Arguments ingredients {I}.
Arguments instructions {I}. Arguments prepTime {I}. Arguments cookTime {I}.
Arguments totalTime {I}. Arguments servings {I}. Arguments difficulty {I}.
Arguments cuisine {I}. Arguments course {I}. Arguments mealType {I}.
Arguments dietaryTags {I}.

(** [fullText.includes(k)] for any of the keywords. *)
Definition includes_any (t : jstr) (ks : list string) : bool :=
  existsb (fun k => includes t (str k)) ks.

(** [match[1]] of the first pattern of a cascade that matches. *)
Fixpoint cascade (t : jstr) (rs : list regex) : option jstr :=
  match rs with
  | [] => None
  | r :: rs' =>
      match exec true r t with
      | Some mt => match group t mt 1 with Some g => Some g | None => Some [] end
      | None => cascade t rs'
      end
  end.

(** The first keyword of the list that the text contains. *)
Fixpoint first_keyword (t : jstr) (ks : list string) : option jstr :=
  match ks with
  | [] => None
  | k :: ks' => if includes t (str k) then Some (str k) else first_keyword t ks'
  end.

(** [[:\s]+] *)
Definition sep : regex := plus (Chr (fun x => N.eqb x 58 || is_space x)).
(** [\d+(?:\s*-\s*\d+)?] *)
Definition num_range : regex :=
  seqs [plus digit; opt (seqs [star space; lit "-"; star space; plus digit])].
(** [(?:min|minute|hr|hour)s?] *)
Definition time_unit : regex :=
  Seq (alts (map lit ["min"; "minute"; "hr"; "hour"]%string)) (opt (lit "s")).
(** [\d+(?:\s*-\s*\d+)?\s*(?:min|minute|hr|hour)s?] *)
Definition duration : regex := seqs [num_range; star space; time_unit].
(** [\d+\s*(?:min|minute|hr|hour)s?] *)
Definition duration1 : regex := seqs [plus digit; star space; time_unit].
(** [w?]: a word with an optional final letter. *)
Definition opt_s (w : string) (x : string) : regex := Seq (lit w) (opt (lit x)).

(** [/(?:serves?|servings?|yields?|makes?)[:\s]+(\d+(?:\s*-\s*\d+)?)/i] *)
Definition servingsPattern : regex :=
  seqs [alts [opt_s "serve" "s"; opt_s "serving" "s"; opt_s "yield" "s"; opt_s "make" "s"];
        sep; Group 1 num_range].

Definition servingsPatterns : list regex := [
  servingsPattern;
  (* /servings?[:\s]+(\d+(?:\s*-\s*\d+)?)/i *)
  seqs [opt_s "serving" "s"; sep; Group 1 num_range];
  (* /makes?\s+(\d+)\s*(?:servings?|people|portions?)/i *)
  seqs [opt_s "make" "s"; plus space; Group 1 (plus digit); star space;
        alts [opt_s "serving" "s"; lit "people"; opt_s "portion" "s"]];
  (* /(?:for|feeds?)\s+(\d+)\s*(?:people|servings?)/i *)
  seqs [alts [lit "for"; opt_s "feed" "s"]; plus space; Group 1 (plus digit); star space;
        alts [lit "people"; opt_s "serving" "s"]];
  (* /(\d+)\s*(?:servings?|people|portions?)/i *)
  seqs [Group 1 (plus digit); star space;
        alts [opt_s "serving" "s"; lit "people"; opt_s "portion" "s"]]].

(** /(\d+)\s*(?:clusters?|cookies?|balls?|pieces?)/i *)
Definition piecesPattern : regex :=
  seqs [Group 1 (plus digit); star space;
        alts [opt_s "cluster" "s"; opt_s "cookie" "s"; opt_s "ball" "s"; opt_s "piece" "s"]].

Definition int_quantity (s : jstr) : Quantity :=
  match Num.parseInt s with Some v => QNum (inject_Z v) | None => QNaN end.

(** [servingsMatch[1].includes('-') ? servingsMatch[1] : parseInt(...)] *)
Definition servings_of (g : jstr) : Quantity :=
  if includes g (str "-") then QStr g else int_quantity g.

Definition infer_servings (fullText : jstr) : option Quantity :=
  if includes_any fullText ["9x13"; "13x9"]%string then Some (QNum (inject_Z 12))
  else if includes_any fullText ["8x8"; "square pan"]%string then Some (QNum (inject_Z 8))
  else if includes_any fullText ["loaf pan"; "bread"]%string then Some (QNum (inject_Z 10))
  else if includes_any fullText ["clusters"; "cookies"; "balls"]%string then
    match exec true piecesPattern fullText with
    | Some mt => match group fullText mt 1 with
                 | Some g => Some (int_quantity g)
                 | None => Some QNaN
                 end
    | None => None
    end
  else if includes_any fullText ["pizza"; "pie"]%string then Some (QNum (inject_Z 8))
  else if includes_any fullText ["soup"; "stew"]%string then Some (QNum (inject_Z 6))
  else None.

Definition extract_servings (fullText : jstr) : option Quantity :=
  match cascade fullText servingsPatterns with
  | Some g => Some (servings_of g)
  | None => infer_servings fullText
  end.

(** [/prep(?:\s+time)?[:\s]+(dur)/i], [dur] being [duration] *)
Definition prepPattern : regex :=
  seqs [lit "prep"; opt (Seq (plus space) (lit "time")); sep; Group 1 duration].

Definition prepPatterns : list regex := [
  prepPattern;
  (* /prep\s+time[:\s]+(dur)/i *)
  seqs [lit "prep"; plus space; lit "time"; sep; Group 1 duration];
  (* /preparation(?:\s+time)?[:\s]+(dur)/i *)
  seqs [lit "preparation"; opt (Seq (plus space) (lit "time")); sep; Group 1 duration];
  (* /(?:takes?\s+)?(dur)\s*(?:to\s+)?prep/i *)
  seqs [opt (seqs [opt_s "take" "s"; plus space]); Group 1 duration; star space;
        opt (Seq (lit "to") (plus space)); lit "prep"]].

(** [!prepTime]: [null] and the empty string. *)
Definition falsy (o : option jstr) : bool :=
  match o with None | Some [] => true | _ => false end.

Definition extract_prepTime (fullText : jstr) : option jstr :=
  let prepTime := cascade fullText prepPatterns in
  if falsy prepTime then
    if includes_any fullText ["tiramisu"; "layered"; "multiple steps"]%string then Some (str "60-90")
    else if includes_any fullText ["whisk"; "whip"; "fold"]%string then Some (str "30-45")
    else if includes_any fullText ["chop"; "dice"; "slice"]%string then Some (str "20-30")
    else prepTime
  else prepTime.

(** [/cook(?:\s+time)?[:\s]+(dur)/i] *)
Definition cookPattern : regex :=
  seqs [lit "cook"; opt (Seq (plus space) (lit "time")); sep; Group 1 duration].

Definition cookPatterns : list regex := [
  cookPattern;
  seqs [lit "cook"; plus space; lit "time"; sep; Group 1 duration];
  seqs [alts [lit "cooking"; lit "bake"]; opt (Seq (plus space) (lit "time")); sep;
        Group 1 duration];
  seqs [alts [lit "bake"; lit "cook"]; plus space; lit "for"; plus space; Group 1 duration]].

Definition totalPatterns : list regex := [
  seqs [lit "total"; opt (Seq (plus space) (lit "time")); sep; Group 1 duration1];
  seqs [lit "total"; plus space; opt (Seq (lit "cooking") (plus space)); lit "time"; sep;
        Group 1 duration1];
  seqs [lit "all"; plus space; lit "together"; sep; Group 1 duration1]].

Definition levels : regex :=
  alts (map lit ["easy"; "medium"; "hard"; "beginner"; "intermediate"; "advanced"]%string).

(** [/difficulty[:\s]+(easy|medium|hard|beginner|intermediate|advanced)/i] *)
Definition difficultyPattern : regex := seqs [lit "difficulty"; sep; Group 1 levels].

Definition difficultyPatterns : list regex := [
  difficultyPattern;
  (* /(?:level|skill)[:\s]+(...)/i *)
  seqs [alts [lit "level"; lit "skill"]; sep; Group 1 levels];
  (* /\b(...)\b/i *)
  seqs [WordB; Group 1 levels; WordB];
  (* /(?:super|very|really)\s+(easy|hard)/i *)
  seqs [alts [lit "super"; lit "very"; lit "really"]; plus space;
        Group 1 (alts [lit "easy"; lit "hard"])]].

(** The cascade, before the override. *)
Definition difficulty_cascade (fullText : jstr) : option jstr :=
  match cascade fullText difficultyPatterns with
  | Some g => Some (toLowerCase g)
  | None =>
      if includes_any fullText ["simple"; "quick"; "basic"]%string then Some (str "easy")
      else if includes_any fullText ["complex"; "advanced"; "challenging"]%string then Some (str "hard")
      else None
  end.

(** The complexity cues of the override. *)
Definition overrideCues : list string :=
  ["tiramisu"; "layered"; "multiple steps"; "whip"; "fold"; "temper"]%string.

Definition extract_difficulty (fullText : jstr) : option jstr :=
  let difficulty := difficulty_cascade fullText in
  if includes_any fullText overrideCues then Some (str "medium") else difficulty.

Definition cuisineKeywords : list string := [
  "italian"; "mexican"; "chinese"; "japanese"; "thai"; "indian"; "french"; "mediterranean";
  "american"; "greek"; "korean"; "vietnamese"; "spanish"; "german"; "british"; "caribbean";
  "middle eastern"; "turkish"; "lebanese"; "moroccan"; "persian"; "african"; "brazilian";
  "argentinian"; "peruvian"; "chilean"; "australian"; "canadian"; "scandinavian"]%string.

Definition courseKeywords : list string := [
  "appetizer"; "starter"; "soup"; "salad"; "main course"; "main dish"; "entree";
  "side dish"; "dessert"; "snack"; "breakfast"; "lunch"; "dinner"; "brunch";
  "beverage"; "drink"; "cocktail"; "sauce"; "condiment"; "dip"; "spread"]%string.

Definition mealKeywords : list string := [
  "breakfast"; "brunch"; "lunch"; "dinner"; "supper"; "snack"; "appetizer";
  "dessert"; "midnight snack"; "late night"; "morning"; "afternoon"; "evening";
  "main course"; "starter"; "afternoon tea"]%string.

Definition infer_mealType (fullText : jstr) : option jstr :=
  if includes_any fullText ["cake"; "cookie"; "pie"; "tiramisu"; "ice cream"; "pudding";
                            "cheesecake"; "mousse"; "tart"; "rolls"; "muffin"; "brownie";
                            "donut"; "cupcake"]%string then Some (str "dessert")
  else if includes_any fullText ["soup"; "stew"; "broth"]%string then Some (str "soup")
  else if includes_any fullText ["pancake"; "waffle"; "toast"; "cereal"; "oatmeal"]%string
  then Some (str "breakfast")
  else if includes_any fullText ["pizza"; "burger"; "sandwich"; "pasta"; "rice"; "noodle";
                                 "chicken"; "beef"; "pork"; "fish"; "shrimp"]%string
  then Some (str "main")
  else if includes_any fullText ["dip"; "sauce"; "spread"; "cracker"; "chip"; "bite"]%string
  then Some (str "snack")
  else None.

Definition extract_mealType (fullText : jstr) : option jstr :=
  match first_keyword fullText mealKeywords with
  | Some k => Some k
  | None => infer_mealType fullText
  end.

Definition dietaryKeywords : list string := [
  "vegan"; "vegetarian"; "gluten-free"; "dairy-free"; "nut-free"; "soy-free";
  "keto"; "paleo"; "low-carb"; "low-fat"; "high-protein"; "sugar-free";
  "halal"; "kosher"; "raw"; "organic"; "whole30"; "atkins"; "south beach"]%string.

(** The loop pushing every keyword the text contains onto [dietaryTagsList]. *)
Definition collect_tags (fullText : jstr) (ks : list string) : list jstr :=
  fold_left (fun acc k => if includes fullText (str k) then acc ++ [str k] else acc) ks [].

(** [dietaryTagsList.length > 0 ? dietaryTagsList : null] *)
Definition tags_or_null (l : list jstr) : option (list jstr) :=
  match l with [] => None | _ => Some l end.

Definition extract_dietaryTags (fullText : jstr) : option (list jstr) :=
  tags_or_null (collect_tags fullText dietaryKeywords).

(** [/^\d+\./] *)
Definition numberedPattern : regex := seqs [Bol; plus digit; lit "."].

(** The condition of the description loop on a trimmed non-empty line. *)
Definition is_description (line : jstr) : bool :=
  let l := toLowerCase line in
  Nat.ltb 30 (List.length line) &&
  negb (includes l (str "ingredients")) &&
  negb (includes l (str "directions")) &&
  negb (includes l (str "instructions")) &&
  negb (includes l (str "method")) &&
  negb (test false numberedPattern line) &&
  negb (startsWith line (str "**")) &&
  negb (startsWith line (str "-")).

Definition first_description (comment : jstr) : option jstr :=
  let descLines := filter (fun l => Nat.ltb 0 (List.length l))
                          (map trim (split_char 10%N comment)) in
  find is_description descLines.

(** [sections.general.slice(0, 3).join(' ').trim().substring(0, 500) || null] *)
Definition general_description (general : list jstr) : option jstr :=
  match firstn 500 (trim (join (str " ") (firstn 3 general))) with
  | [] => None
  | d => Some d
  end.

(** [description || generalDescription] *)
Definition or_else (a b : option jstr) : option jstr :=
  match a with Some (_ :: _) => a | _ => b end.

(** ['\n'] *)
Definition newline : jstr := [10%N].

(** [parseRecipeFromComment(comment, title)]. *)
Definition parseRecipeFromComment (comment title : jstr) : RecipeData Ingredient :=
  let sections := Segmenter.segment comment in
  let ingredients := parseIngredients (join newline (Segmenter.s_ingredients sections)) in
  let instructions := Cleaner.parseInstructions
                        (join newline (Segmenter.s_instructions sections)) in
  let description := first_description comment in
  let fullText := toLowerCase comment in
  {| title := title;
     description := or_else description (general_description (Segmenter.s_general sections));
     ingredients := ingredients;
     instructions := instructions;
     prepTime := extract_prepTime fullText;
     cookTime := cascade fullText cookPatterns;
     totalTime := cascade fullText totalPatterns;
     servings := extract_servings fullText;
     difficulty := extract_difficulty fullText;
     cuisine := first_keyword fullText cuisineKeywords;
     course := first_keyword fullText courseKeywords;
     mealType := extract_mealType fullText;
     dietaryTags := extract_dietaryTags fullText |}.

End Comment.

(** [s.split(re)] for a separator without captures, following the
    ECMAScript split algorithm: the separator is tried at each position
    [q]; an empty separator match at [p] does not split. *)
Module Split.

Section Split.
Variable ic : bool.
Variable r : regex.
Variable s : jstr.

Fixpoint split_from (p q fuel : nat) : list jstr :=
  match fuel with
  | O => [skipn p s]
  | S fuel' =>
      if Nat.leb (List.length s) q then [skipn p s]
      else match match_at s ic r q with
           | None => split_from p (S q) fuel'
           | Some (e, _) =>
               if Nat.eqb e p then split_from p (S q) fuel'
               else sub s p q :: split_from e e fuel'
           end
  end.

Definition split_re : list jstr :=
  match s with
  | [] => match match_at s ic r 0 with Some _ => [] | None => [s] end
  | _ => split_from 0 0 (S (List.length s))
  end.

End Split.
End Split.

(** ** The pre-segmented-array variant: [parseStrombergRecipeLocal] *)
Module Stromberg.

Import Tokenizer Comment.

(** [ParsedIngredient] of shared_parser.ts. *)
Record ParsedIngredient : Type := { amount : jstr; pname : jstr }.

(** [/\s*[-–—]\s*|\s*:\s*/]: [-], U+2013, U+2014. *)
Definition separatorPattern : regex :=
  Alt (seqs [star space; Chr (fun x => existsb (N.eqb x) [45; 8211; 8212]%N); star space])
      (seqs [star space; lit ":"; star space]).

(** [/^(\d+(?:\/\d+)?(?:\s+\d+\/\d+)?(?:\s*(?:cup|...|dl))?\s* )/i] *)
Definition amountPattern : regex :=
  seqs [Bol; Group 1 (seqs [
    plus digit; opt (Seq (lit "/") (plus digit));
    opt (seqs [plus space; plus digit; lit "/"; plus digit]);
    opt (Seq (star space)
             (alts (map lit ["cup"; "tbsp"; "tsp"; "oz"; "lb"; "gram"; "ml"; "c."; "tsp.";
                             "tbsp."; "tablespoon"; "teaspoon"; "ounce"; "pound"; "kilogram";
                             "liter"; "g"; "kg"; "l"; "ml"; "cl"; "dl"]%string)));
    star space])].

(** The callback of [ingredients.map]. *)
Definition parse_ingredient (ing : jstr) : ParsedIngredient :=
  let parts := Split.split_re false separatorPattern ing in
  if Nat.leb 2 (List.length parts) then
    {| amount := trim (hd [] parts); pname := trim (join (str " ") (tl parts)) |}
  else
    match exec true amountPattern ing with
    | Some amountMatch =>
        let g := match group ing amountMatch 1 with Some g => g | None => [] end in
        {| amount := trim g; pname := trim (skipn (List.length g) ing) |}
    | None => {| amount := []; pname := ing |}
    end.

(** [/^\d+\.?\s*/] *)
Definition numberingPattern : regex := seqs [Bol; plus digit; opt (lit "."); star space].

(** The callback of [directions.map]. *)
Definition clean_direction (dir : jstr) : jstr :=
  let d := replace1 false numberingPattern dir by_empty in
  let d := replace_all false Cleaner.boldPattern d (by_group1 d) in
  let d := replace_all false Cleaner.italicPattern d (by_group1 d) in
  let d := replace_all false Cleaner.strikePattern d (by_group1 d) in
  let d := replace_all false Cleaner.edgeStarsPattern d by_empty in
  trim d.

Definition cuisineKeywords : list string := [
  "italian"; "mexican"; "chinese"; "japanese"; "thai"; "indian"; "french"; "mediterranean";
  "american"; "greek"; "korean"; "vietnamese"; "spanish"; "german"; "british"; "caribbean"]%string.

Definition courseKeywords : list string := [
  "appetizer"; "starter"; "soup"; "salad"; "main dish"; "main course"; "side dish"; "dessert";
  "beverage"; "drink"; "snack"; "breakfast"; "lunch"; "dinner"; "brunch"; "sauce"; "dip"]%string.

Definition mealKeywords : list string := [
  "breakfast"; "brunch"; "lunch"; "dinner"; "supper"; "snack"; "appetizer"; "dessert"]%string.

Definition dietaryKeywords : list string := [
  "vegan"; "vegetarian"; "gluten-free"; "dairy-free"; "nut-free"; "soy-free";
  "keto"; "paleo"; "low-carb"; "high-protein"; "raw"; "organic"; "halal"; "kosher"]%string.

(** The difficulty block of this variant. *)
Definition extract_difficulty (combinedText : jstr) : option jstr :=
  match exec true difficultyPattern combinedText with
  | Some mt => Some (toLowerCase (match group combinedText mt 1 with Some g => g | None => [] end))
  | None =>
      if includes_any combinedText ["simple"; "quick"]%string then Some (str "easy")
      else if includes_any combinedText ["complex"; "advanced"]%string then Some (str "hard")
      else None
  end.

(** [/total(?:\s+time)?[:\s]+(\d+(?:\s*-\s*\d+)?\s*(?:min|minute|hr|hour)s?)/i] *)
Definition totalPattern : regex :=
  seqs [lit "total"; opt (Seq (plus space) (lit "time")); sep; Group 1 duration].

(** [parseStrombergRecipeLocal(ingredients, directions, title)]. *)
Definition parseStrombergRecipeLocal (ingredients directions : list jstr) (title : jstr)
    : RecipeData ParsedIngredient :=
  let parsedIngredients := map parse_ingredient ingredients in
  let instructions := filter (fun inst => Nat.ltb 10 (List.length inst))
                             (map clean_direction directions) in
  let combinedText := toLowerCase (join (str " ") (ingredients ++ directions)) in
  {| title := title;
     description := None;
     ingredients := parsedIngredients;
     instructions := instructions;
     prepTime := cascade combinedText [prepPattern];
     cookTime := cascade combinedText [cookPattern];
     totalTime := cascade combinedText [totalPattern];
     servings := option_map servings_of (cascade combinedText [servingsPattern]);
     difficulty := extract_difficulty combinedText;
     cuisine := first_keyword combinedText cuisineKeywords;
     course := first_keyword combinedText courseKeywords;
     mealType := first_keyword combinedText mealKeywords;
     dietaryTags := tags_or_null (collect_tags combinedText dietaryKeywords) |}.

End Stromberg.

(** ** The shared parser of the Reddit format: shared_parser.ts *)
Module Shared.

Import Tokenizer Comment.

(** The characters the separator patterns of the file look for: [-],
    U+2013, U+2014 and [:]. *)
Definition is_separator (x : char) : bool := existsb (N.eqb x) [45; 8211; 8212; 58]%N.

(** [/^[\*\-\+\•]\s*/]: [*], [-], [+], U+2022. *)
Definition bulletPattern : regex :=
  seqs [Bol; Chr (fun x => existsb (N.eqb x) [42; 45; 43; 8226]%N); star space].

(** [/^(.+?)\s*[-–—]\s*(.+)$/] *)
Definition dashPattern : regex :=
  seqs [Bol; Group 1 (Seq dot (lazy_star dot)); star space;
        Chr (fun x => existsb (N.eqb x) [45; 8211; 8212]%N); star space;
        Group 2 (plus dot); Eol].

(** [trimmed.replace(/^[\*\-\+\•]\s*/, '').trim()] *)
Definition strip_line (trimmed : jstr) : jstr :=
  trim (replace1 false bulletPattern trimmed by_empty).

Definition group_or_empty (s : jstr) (mt : mtch) (n : nat) : jstr :=
  match group s mt n with Some g => g | None => [] end.

(** The body of the [for] loop of [parseIngredients] on one line: [None]
    is [continue]. *)
Definition parse_line (line : jstr) : option Stromberg.ParsedIngredient :=
  let trimmed := trim line in
  if Nat.ltb (List.length trimmed) 3 then None
  else
    let cleaned := strip_line trimmed in
    match exec false dashPattern cleaned with
    | Some mt =>
        Some {| Stromberg.amount := trim (group_or_empty cleaned mt 1);
                Stromberg.pname := trim (group_or_empty cleaned mt 2) |}
    | None =>
        let parts := Split.split_re false Stromberg.separatorPattern cleaned in
        if Nat.leb 2 (List.length parts) then
          Some {| Stromberg.amount := trim (hd [] parts);
                  Stromberg.pname := trim (join (str " ") (tl parts)) |}
        else
          match exec true Stromberg.amountPattern cleaned with
          | Some amountMatch =>
              let g := group_or_empty cleaned amountMatch 1 in
              Some {| Stromberg.amount := trim g;
                      Stromberg.pname := trim (skipn (List.length g) cleaned) |}
          | None => Some {| Stromberg.amount := []; Stromberg.pname := cleaned |}
          end
    end.

(** [text.split('\n').filter(line => line.trim())] *)
Definition nonblank_lines (text : jstr) : list jstr :=
  filter (fun l => match trim l with [] => false | _ => true end) (split_char 10%N text).

(** [parseIngredients(ingredientsText)]. *)
Definition parseIngredients (ingredientsText : jstr) : list Stromberg.ParsedIngredient :=
  flat_map (fun line => match parse_line line with Some i => [i] | None => [] end)
           (nonblank_lines ingredientsText).

(** The cleaning chain of [parseInstructions] on a trimmed line. *)
Definition clean (trimmed : jstr) : jstr :=
  let cleaned := replace1 false Stromberg.numberingPattern trimmed by_empty in
  let cleaned := replace1 false bulletPattern cleaned by_empty in
  let cleaned := replace_all false Cleaner.boldPattern cleaned (by_group1 cleaned) in
  let cleaned := replace_all false Cleaner.italicPattern cleaned (by_group1 cleaned) in
  let cleaned := replace_all false Cleaner.strikePattern cleaned (by_group1 cleaned) in
  let cleaned := replace_all false Cleaner.edgeStarsPattern cleaned by_empty in
  trim cleaned.

(** The body of the [for] loop of [parseInstructions] on one line. *)
Definition parse_step (line : jstr) : option jstr :=
  let trimmed := trim line in
  if Nat.ltb (List.length trimmed) 10 then None
  else
    let cleaned := clean trimmed in
    if Nat.ltb 10 (List.length cleaned) then Some cleaned else None.

(** [parseInstructions(instructionsText)]. *)
Definition parseInstructions (instructionsText : jstr) : list jstr :=
  flat_map (fun line => match parse_step line with Some s => [s] | None => [] end)
           (nonblank_lines instructionsText).

End Shared.

(** ** Character requirements of patterns, used to show that a pattern
    cannot match a text that lacks some characters *)
Section Requirements.
Variable ic : bool.

(** [Needs P r]: every match of [r] consumes a character satisfying [P]. *)
Inductive Needs (P : char -> bool) : regex -> Prop :=
| needs_chr (p : char -> bool) :
    (forall x, cmatch ic p x = true -> P x = true) -> Needs P (Chr p)
| needs_seq_l r1 r2 : Needs P r1 -> Needs P (Seq r1 r2)
| needs_seq_r r1 r2 : Needs P r2 -> Needs P (Seq r1 r2)
| needs_alt r1 r2 : Needs P r1 -> Needs P r2 -> Needs P (Alt r1 r2)
| needs_group n r1 : Needs P r1 -> Needs P (Group n r1).

(** [NeedsAt P r]: every match of [r] starts with a character satisfying [P]. *)
Inductive NeedsAt (P : char -> bool) : regex -> Prop :=
| needs_at_chr (p : char -> bool) :
    (forall x, cmatch ic p x = true -> P x = true) -> NeedsAt P (Chr p)
| needs_at_seq r1 r2 : NeedsAt P r1 -> NeedsAt P (Seq r1 r2)
| needs_at_alt r1 r2 : NeedsAt P r1 -> NeedsAt P r2 -> NeedsAt P (Alt r1 r2)
| needs_at_group n r1 : NeedsAt P r1 -> NeedsAt P (Group n r1).

End Requirements.

(** * Properties *)

Import Tokenizer.

(** ** Matcher lemmas *)
Section MatcherFacts.

Lemma skipn_nth_cons (inp : jstr) (i : nat) (x : char) (rest : jstr) :
  skipn i inp = x :: rest -> nth_error inp i = Some x /\ skipn (S i) inp = rest.
Proof.
  revert i. induction inp as [|y inp IH]; intros [|i] H; simpl in *; try discriminate.
  - inversion H; subst; auto.
  - apply IH; exact H.
Qed.

(** A literal matches, case-insensitively, where the lower-cased input
    starts with it. *)
Lemma m_lit_ic (inp w : jstr) (i : nat) k cs :
  prefixb w (toLowerCase (skipn i inp)) = true ->
  forallb is_lower w = true ->
  m inp true (lit_of w) k i cs = k (i + List.length w) cs.
Proof.
  revert i. induction w as [|x w IH]; intros i Hp Hl; simpl.
  - now rewrite Nat.add_0_r.
  - destruct (skipn i inp) as [|y rest] eqn:Hs; simpl in Hp; [discriminate|].
    apply skipn_nth_cons in Hs as [Hn Hs]. rewrite Hn.
    apply Bool.andb_true_iff in Hp as [Hxy Hp].
    apply Bool.andb_true_iff in Hl as [Hx Hl].
    apply N.eqb_eq in Hxy.
    unfold cmatch. replace (N.eqb x (lower y)) with true by (symmetry; apply N.eqb_eq; auto).
    rewrite Bool.orb_true_l, Bool.andb_true_l, Bool.orb_true_r.
    rewrite IH; [now rewrite Nat.add_succ_r | now rewrite Hs | exact Hl].
Qed.

Lemma m_alts_some (inp : jstr) ic rs r k i cs res :
  In r rs -> m inp ic r k i cs = Some res ->
  exists res', m inp ic (alts rs) k i cs = Some res'.
Proof.
  induction rs as [|r0 rs IH]; intros Hin Hm; [destruct Hin|].
  destruct rs as [|r1 rs'].
  - destruct Hin as [<-|[]]. simpl. eauto.
  - change (m inp ic (alts (r0 :: r1 :: rs')) k i cs) with
      (match m inp ic r0 k i cs with
       | Some res => Some res
       | None => m inp ic (alts (r1 :: rs')) k i cs
       end).
    destruct (m inp ic r0 k i cs) eqn:E; [eauto|].
    destruct Hin as [<-|Hin]; [congruence|]. eauto.
Qed.

End MatcherFacts.

(** ** The tokenizer *)
Section TokenizerFacts.

Lemma headerPattern_prefix (line : jstr) (w : string) :
  In w skipped_words -> prefixb (str w) (toLowerCase line) = true ->
  test true headerPattern line = true.
Proof.
  intros Hin Hp.
  set (k := fun (j : nat) (cs : caps) => Some (j, cs) : option (nat * caps)).
  set (k' := fun (j : nat) (cs : caps) => k j ((1, (0, j)) :: cs)).
  assert (Hm : exists res, m line true (alts (map lit skipped_words)) k' 0 [] = Some res).
  { eapply m_alts_some with (r := lit w); [now apply in_map|].
    unfold lit. rewrite m_lit_ic; [reflexivity| exact Hp |].
    destruct Hin as [<-|[<-|[<-|[<-|[<-|[<-|[<-|[]]]]]]]]; reflexivity. }
  destruct Hm as [[j cs] Hm].
  assert (Hh : match_at line true headerPattern 0 = Some (j, cs)) by exact Hm.
  unfold test, exec. simpl search_from. rewrite Hh. reflexivity.
Qed.

End TokenizerFacts.

(** C10: the tokenizer silently drops every ingredient line whose trimmed
    text is shorter than 3 characters or starts, case-insensitively, with
    "ingredient", "instruction", "direction", "step", "method", "prep" or
    "cook"; in particular "prepared horseradish" yields no ingredient. *)
Theorem parseIngredients_drops_short_and_keyword_lines :
  (forall line : jstr,
      (List.length (trim line) < 3 \/
       exists w, In w skipped_words /\ prefixb (str w) (toLowerCase (trim line)) = true) ->
      Tokenizer.parse_line line = None) /\
  parseIngredients (str "prepared horseradish") = [].
Proof.
  split; [|vm_compute; reflexivity].
  intros line [Hlen|[w [Hin Hp]]]; unfold Tokenizer.parse_line.
  - apply Nat.ltb_lt in Hlen. now rewrite Hlen.
  - rewrite (headerPattern_prefix _ _ Hin Hp).
    now destruct (Nat.ltb (List.length (trim line)) 3).
Qed.

Lemma parseIngredients_drops_short_and_keyword_lines_witness :
  Tokenizer.parse_line (str "Prepared horseradish") = None.
Proof.
  apply (proj1 parseIngredients_drops_short_and_keyword_lines).
  right. exists "prep"%string. split; [simpl; tauto | vm_compute; reflexivity].
Defined.

(** C1 (code bug): on "(2) cups flour" unit extraction runs while
    the group "(2)" is still at the start, so no unit is found and the name
    is "cups flour"; on "eggs (1-2)" the range inside the parentheses is
    taken as the quantity and no notes are left: notes extraction does not
    run first. *)
Lemma parse_line_notes_not_first :
  Tokenizer.parse_line (str "(2) cups flour") =
  Some {| name := str "cups flour"; quantity := None; unit := None; notes := Some (str "2") |} /\
  Tokenizer.parse_line (str "eggs (1-2)") =
  Some {| name := str "eggs ()"; quantity := Some (QStr (str "1-2"));
          unit := None; notes := None |}.
Proof. split; vm_compute; reflexivity. Qed.

(** C2 (code bug): the leading "1" of "1/2 cup flour" is removed as if it
    were a list number, so "/2 cup flour" stays in the name with no
    quantity; and the range pattern is not anchored: "flour 1-2 cups"
    takes "1-2" from the middle of the line. *)
Theorem parse_line_leading_token_in_name :
  Tokenizer.parse_line (str "1/2 cup flour") =
  Some {| name := str "/2 cup flour"; quantity := None; unit := None; notes := None |} /\
  option_map quantity (Tokenizer.parse_line (str "flour 1-2 cups")) =
  Some (Some (QStr (str "1-2"))).
Proof. split; vm_compute; reflexivity. Qed.

(** C3 (counterexample): "2 cups" has an empty name after the quantity and
    unit are removed, and the tokenizer returns no ingredient for it. *)
Lemma parseIngredients_drops_empty_name :
  parseIngredients (str "2 cups") = [].
Proof. vm_compute. reflexivity. Qed.

(** C3 (amended): a line whose name is empty after the quantity, unit and
    notes removal and trimming yields no ingredient (nothing raised, no
    placeholder), and every ingredient returned has a non-empty name. *)
Theorem parseIngredients_empty_name_dropped :
  (forall line : jstr, snd (tokenizer_steps line) = [] -> Tokenizer.parse_line line = None) /\
  (forall (text : jstr) (ing : Ingredient), In ing (parseIngredients text) -> name ing <> []).
Proof.
  split.
  - intros line. unfold Tokenizer.parse_line, tokenizer_steps, strip_line.
    destruct (Nat.ltb _ 3); [reflexivity|].
    destruct (test true headerPattern _); [reflexivity|].
    destruct (extract_quantity _) as [q c1].
    destruct (extract_unit c1) as [u c2].
    destruct (extract_notes c2) as [n c3].
    simpl. intros ->. reflexivity.
  - intros text ing Hin. unfold parseIngredients in Hin.
    apply in_flat_map in Hin as [line [_ Hin]].
    destruct (Tokenizer.parse_line line) as [i|] eqn:Hp; [|destruct Hin].
    destruct Hin as [<-|[]].
    revert Hp. unfold Tokenizer.parse_line.
    destruct (Nat.ltb _ 3); [discriminate|].
    destruct (test true headerPattern _); [discriminate|].
    destruct (extract_quantity _) as [q c1].
    destruct (extract_unit c1) as [u c2].
    destruct (extract_notes c2) as [n c3].
    destruct (trim c3) as [|x rest]; [discriminate|].
    intros H; inversion H; subst; simpl; discriminate.
Qed.

Lemma parseIngredients_empty_name_dropped_witness :
  Tokenizer.parse_line (str "2 cups") = None.
Proof.
  apply (proj1 parseIngredients_empty_name_dropped). vm_compute. reflexivity.
Defined.

(** C4 (code bug): on "1 cup sugar" the leading "1" is removed before the
    quantity step, so no quantity is returned, and after the unit "cup"
    the "s" of "sugar" is consumed as a plural, so the name is "ugar".
    The spec's own example "2 cups flour" also comes back without a
    quantity. *)
Theorem parse_line_cup_sugar :
  Tokenizer.parse_line (str "1 cup sugar") =
  Some {| name := str "ugar"; quantity := None; unit := Some (str "cup"); notes := None |} /\
  Tokenizer.parse_line (str "2 cups flour") =
  Some {| name := str "flour"; quantity := None; unit := Some (str "cups"); notes := None |}.
Proof. split; vm_compute; reflexivity. Qed.

(** ** The difficulty override *)

(** C5 (counterexample): in the array variant, the text of the spec's
    example with an explicit "difficulty: easy" label and the cue "fold"
    yields "easy", not "medium". *)
Lemma stromberg_no_override :
  Comment.difficulty
    (Stromberg.parseStrombergRecipeLocal
       [str "Easy Tiramisu recipe"]
       [str "difficulty: easy"; str "fold in the whipped cream"] (str "Easy Tiramisu")) =
  Some (str "easy").
Proof. vm_compute. reflexivity. Qed.

(** C5 (amended): in the comment variant the override is absolute: a
    lowercased comment containing any of the cues yields "medium",
    whatever else the text says.  The array variant has no override: an
    explicit "difficulty:" label decides (lowercased); without one,
    "simple"/"quick" give "easy", else "complex"/"advanced" give "hard",
    else nothing. *)
Theorem difficulty_override_comment_only :
  (forall comment title : jstr,
      Comment.includes_any (toLowerCase comment) Comment.overrideCues = true ->
      Comment.difficulty (Comment.parseRecipeFromComment comment title) = Some (str "medium")) /\
  (forall (ings dirs : list jstr) (title : jstr),
      let t := toLowerCase (join (str " ") (ings ++ dirs)) in
      Comment.difficulty (Stromberg.parseStrombergRecipeLocal ings dirs title) =
      match Comment.cascade t [Comment.difficultyPattern] with
      | Some g => Some (toLowerCase g)
      | None =>
          if Comment.includes_any t ["simple"; "quick"]%string then Some (str "easy")
          else if Comment.includes_any t ["complex"; "advanced"]%string then Some (str "hard")
          else None
      end).
Proof.
  split.
  - intros comment title H. simpl. unfold Comment.extract_difficulty. now rewrite H.
  - intros ings dirs title t. simpl. unfold Stromberg.extract_difficulty. fold t.
    destruct (exec true Comment.difficultyPattern t) as [mt|]; [|reflexivity].
    destruct (group t mt 1); reflexivity.
Qed.

Lemma difficulty_override_comment_only_witness :
  Comment.difficulty
    (Comment.parseRecipeFromComment
       (str "Easy Tiramisu recipe... difficulty: easy. Fold in the whipped cream")
       (str "Easy Tiramisu")) = Some (str "medium").
Proof.
  apply (proj1 difficulty_override_comment_only). vm_compute. reflexivity.
Defined.

(** ** The segmenter *)
Section SegmenterFacts.
Import Segmenter.

Lemma header_step_count (st : section * sections) (l : jstr) :
  content_count st <= content_count (header_step st l).
Proof.
  destruct st as [cur s]. unfold header_step, content_count.
  destruct (test true ingredientsHeader _); [simpl; lia|].
  destruct (test true instructionsHeader _); [simpl; lia|].
  destruct cur; simpl; rewrite ?length_app; simpl; lia.
Qed.

Lemma header_step_section (st : section * sections) (l : jstr) :
  fst st <> General -> fst (header_step st l) <> General.
Proof.
  destruct st as [cur s]. unfold header_step. simpl. intros Hc.
  destruct (test true ingredientsHeader _); [simpl; discriminate|].
  destruct (test true instructionsHeader _); [simpl; discriminate|].
  destruct cur; simpl; congruence.
Qed.

Lemma header_step_content (st : section * sections) (l : jstr) :
  fst st <> General -> is_header l = false ->
  S (content_count st) <= content_count (header_step st l).
Proof.
  destruct st as [cur s]. unfold header_step, is_header, content_count. simpl.
  intros Hc Hh. apply Bool.orb_false_iff in Hh as [H1 H2]. rewrite H1, H2.
  destruct cur; simpl; rewrite ?length_app; simpl; try lia. congruence.
Qed.

Lemma fold_header_count (ls : list jstr) (st : section * sections) :
  content_count st <= content_count (fold_left header_step ls st).
Proof.
  revert st. induction ls as [|l ls IH]; intros st; simpl; [lia|].
  eapply Nat.le_trans; [apply (header_step_count st l)| apply IH].
Qed.

Lemma fold_header_section (ls : list jstr) (st : section * sections) :
  fst st <> General -> fst (fold_left header_step ls st) <> General.
Proof.
  revert st. induction ls as [|l ls IH]; intros st H; simpl; [exact H|].
  apply IH. now apply header_step_section.
Qed.

Lemma fold_header_content (ls : list jstr) (st : section * sections) :
  fst st <> General -> (exists l, In l ls /\ is_header l = false) ->
  1 <= content_count (fold_left header_step ls st).
Proof.
  intros Hs [l [Hin Hh]]. apply in_split in Hin as [l1 [l2 ->]].
  rewrite fold_left_app. simpl.
  eapply Nat.le_trans; [|apply fold_header_count].
  eapply Nat.le_trans; [|apply header_step_content; [apply fold_header_section|]]; auto.
  lia.
Qed.

Lemma fallback_pass_general (ls : list jstr) (s : sections) :
  s_general (fallback_pass ls s) = s_general s.
Proof.
  unfold fallback_pass. revert s. induction ls as [|l ls IH]; intros s; simpl; [reflexivity|].
  rewrite IH. unfold fallback_step.
  destruct (test true measurementPattern _); [reflexivity|].
  destruct (test true verbPattern _); reflexivity.
Qed.

End SegmenterFacts.

(** C6: the content-based pass runs exactly when both explicit buckets are
    empty after the header-based pass; so a text with an "Ingredients"
    header followed by at least one content line (a line that is not
    itself a section header), whatever that line says, never runs it; and
    within that pass a line matching neither the measurement pattern nor
    a leading cooking verb is added to no bucket (the general bucket is
    left as the header-based pass built it). *)
Theorem segment_fallback_only_without_sections :
  (forall comment : jstr,
      let lines := split_char 10%N comment in
      let hp := Segmenter.header_pass lines in
      ((Segmenter.s_ingredients hp = [] /\ Segmenter.s_instructions hp = []) ->
         Segmenter.segment comment = Segmenter.fallback_pass lines hp) /\
      ((Segmenter.s_ingredients hp <> [] \/ Segmenter.s_instructions hp <> []) ->
         Segmenter.segment comment = hp)) /\
  (forall (comment h : jstr) (pre post : list jstr),
      split_char 10%N comment = pre ++ h :: post ->
      test true Segmenter.ingredientsHeader (Segmenter.header_text h) = true ->
      (exists l, In l post /\ Segmenter.is_header l = false) ->
      Segmenter.segment comment = Segmenter.header_pass (split_char 10%N comment)) /\
  (forall (s : Segmenter.sections) (pre post : list jstr) (l : jstr),
      test true Segmenter.measurementPattern (trim l) = false ->
      test true Segmenter.verbPattern (trim l) = false ->
      Segmenter.fallback_pass (pre ++ l :: post) s = Segmenter.fallback_pass (pre ++ post) s) /\
  (forall (lines : list jstr) (s : Segmenter.sections),
      Segmenter.s_general (Segmenter.fallback_pass lines s) = Segmenter.s_general s).
Proof.
  split; [|split; [|split]].
  - intros comment lines hp. unfold Segmenter.segment. fold lines. fold hp.
    unfold Segmenter.needs_fallback. split.
    + intros [-> ->]. reflexivity.
    + intros [H|H]; destruct (Segmenter.s_ingredients hp); try congruence;
        destruct (Segmenter.s_instructions hp); congruence.
  - intros comment h pre post Hsplit Hh Hpost.
    unfold Segmenter.segment. rewrite Hsplit.
    assert (Hc : 1 <= Segmenter.content_count
                        (fold_left Segmenter.header_step (pre ++ h :: post)
                                   (Segmenter.General, Segmenter.empty_sections))).
    { rewrite fold_left_app. simpl. apply fold_header_content; [|exact Hpost].
      destruct (fold_left Segmenter.header_step pre _) as [cur s].
      unfold Segmenter.header_step. rewrite Hh. simpl. discriminate. }
    unfold Segmenter.header_pass, Segmenter.needs_fallback.
    unfold Segmenter.content_count in Hc.
    destruct (snd (fold_left _ _ _)) as [ing ins gen]. simpl in *.
    destruct ing; [destruct ins|]; simpl in *; [lia|reflexivity|reflexivity].
  - intros s pre post l Hm Hv. unfold Segmenter.fallback_pass.
    rewrite !fold_left_app. simpl. f_equal.
    unfold Segmenter.fallback_step. now rewrite Hm, Hv.
  - exact fallback_pass_general.
Qed.

Lemma segment_fallback_only_without_sections_witness :
  Segmenter.segment (str "My cake
Ingredients:
salt
pepper") = Segmenter.header_pass (split_char 10%N (str "My cake
Ingredients:
salt
pepper")).
Proof.
  apply (proj1 (proj2 segment_fallback_only_without_sections))
    with (h := str "Ingredients:") (pre := [str "My cake"]) (post := [str "salt"; str "pepper"]).
  - vm_compute. reflexivity.
  - vm_compute. reflexivity.
  - exists (str "salt"). split; [simpl; auto | vm_compute; reflexivity].
Defined.

(** ** The instruction cleaner *)

Lemma cleaner_parse_line_spec (line step : jstr) :
  Cleaner.parse_line line = Some step <->
  10 <= List.length (trim line) /\
  test true Cleaner.measurePattern (trim line) = false /\
  step = Cleaner.clean (trim line) /\
  10 < List.length step.
Proof.
  unfold Cleaner.parse_line.
  destruct (Nat.ltb (List.length (trim line)) 10) eqn:E1.
  - apply Nat.ltb_lt in E1. split; [discriminate|]. intros [H _]. lia.
  - apply Nat.ltb_ge in E1.
    destruct (test true Cleaner.measurePattern (trim line)) eqn:E2.
    + split; [discriminate|]. intros [_ [H _]]. discriminate.
    + destruct (Nat.ltb 10 (List.length (Cleaner.clean (trim line)))) eqn:E3.
      * apply Nat.ltb_lt in E3. split.
        -- intros H; inversion H; subst. auto.
        -- intros [_ [_ [-> _]]]. reflexivity.
      * apply Nat.ltb_ge in E3. split; [discriminate|].
        intros [_ [_ [-> H]]]. lia.
Qed.

(** C7: the cleaner emits a step for a line exactly when the trimmed line
    has at least 10 characters, does not match the measurement pattern,
    and its cleaned form is longer than 10 characters; so every emitted
    step has at least 11 characters. *)
Theorem parseInstructions_emits_iff :
  forall text step : jstr,
    (In step (Cleaner.parseInstructions text) <->
     exists line, In line (split_char 10%N text) /\
       10 <= List.length (trim line) /\
       test true Cleaner.measurePattern (trim line) = false /\
       step = Cleaner.clean (trim line) /\
       10 < List.length step) /\
    (In step (Cleaner.parseInstructions text) -> 11 <= List.length step).
Proof.
  intros text step.
  assert (Hiff : In step (Cleaner.parseInstructions text) <->
     exists line, In line (split_char 10%N text) /\
       10 <= List.length (trim line) /\
       test true Cleaner.measurePattern (trim line) = false /\
       step = Cleaner.clean (trim line) /\
       10 < List.length step).
  { unfold Cleaner.parseInstructions. rewrite in_flat_map. split.
    - intros [line [Hl Hs]]. exists line. split; [exact Hl|].
      apply cleaner_parse_line_spec.
      destruct (Cleaner.parse_line line) as [s|]; [|destruct Hs].
      destruct Hs as [<-|[]]. reflexivity.
    - intros [line [Hl Hc]]. exists line. split; [exact Hl|].
      apply cleaner_parse_line_spec in Hc. rewrite Hc. left. reflexivity. }
  split; [exact Hiff|].
  intros H. apply Hiff in H as [_ [_ [_ [_ [_ H]]]]]. lia.
Qed.

Lemma parseInstructions_emits_iff_witness :
  11 <= List.length (str "Mix until smooth and creamy").
Proof.
  apply (proj2 (parseInstructions_emits_iff (str "Mix.
Mix until smooth and creamy") (str "Mix until smooth and creamy"))).
  vm_compute. left. reflexivity.
Defined.

(** ** Dietary tags *)

Lemma collect_tags_filter (t : jstr) (ks : list string) :
  Comment.collect_tags t ks = map str (filter (fun k => includes t (str k)) ks).
Proof.
  unfold Comment.collect_tags.
  assert (H : forall acc, fold_left (fun acc k => if includes t (str k) then acc ++ [str k] else acc)
                                    ks acc = acc ++ map str (filter (fun k => includes t (str k)) ks)).
  { induction ks as [|k ks IH]; intros acc; simpl; [now rewrite app_nil_r|].
    destruct (includes t (str k)); rewrite IH; [now rewrite <- app_assoc|reflexivity]. }
  apply H.
Qed.

(** C8: the dietary tags are the vocabulary keywords that occur in the
    lowercased text, all of them and in vocabulary order; with none the
    field is null, never an empty list. *)
Theorem dietaryTags_all_in_vocabulary_order :
  forall comment title : jstr,
    let t := toLowerCase comment in
    let found := map str (filter (fun k => includes t (str k)) Comment.dietaryKeywords) in
    Comment.dietaryTags (Comment.parseRecipeFromComment comment title) =
      match found with [] => None | _ => Some found end /\
    Comment.dietaryTags (Comment.parseRecipeFromComment comment title) <> Some [].
Proof.
  intros comment title t found.
  assert (H : Comment.dietaryTags (Comment.parseRecipeFromComment comment title) =
              match found with [] => None | _ => Some found end).
  { simpl. unfold Comment.extract_dietaryTags, Comment.tags_or_null.
    rewrite collect_tags_filter. reflexivity. }
  split; [exact H|]. rewrite H. destruct found; discriminate.
Qed.

(** * Further properties of the parsers *)

(** ** Strings *)
Section StringFacts.

Lemma split_char_not_nil (sep : char) (s : jstr) : split_char sep s <> [].
Proof.
  induction s as [|x s IH]; simpl; [discriminate|].
  destruct (N.eqb x sep); [discriminate|]. destruct (split_char sep s); discriminate.
Qed.

(** Splitting at a separator splits the two sides independently. *)
Lemma split_char_app (sep : char) (s1 s2 : jstr) :
  split_char sep (s1 ++ sep :: s2) = split_char sep s1 ++ split_char sep s2.
Proof.
  induction s1 as [|x s1 IH]; simpl.
  - rewrite N.eqb_refl. reflexivity.
  - rewrite IH. destruct (N.eqb x sep); [reflexivity|].
    destruct (split_char sep s1) as [|w ws] eqn:E; [now apply split_char_not_nil in E|].
    reflexivity.
Qed.

Lemma split_char_In (sep : char) (s l : jstr) (x : char) :
  In l (split_char sep s) -> In x l -> In x s.
Proof.
  revert l. induction s as [|y s IH]; intros l Hl Hx; simpl in Hl.
  - destruct Hl as [<-|[]]. destruct Hx.
  - destruct (N.eqb y sep).
    + destruct Hl as [<-|Hl]; [destruct Hx|]. right. eauto.
    + destruct (split_char sep s) as [|w ws] eqn:E.
      * destruct Hl as [<-|[]]. destruct Hx as [<-|[]]. left; reflexivity.
      * destruct Hl as [<-|Hl].
        -- destruct Hx as [<-|Hx]; [left; reflexivity|]. right. apply (IH w); [left|]; auto.
        -- right. apply (IH l); [right|]; auto.
Qed.

Lemma trim_start_suffix (s : jstr) : exists p, s = p ++ trim_start s.
Proof.
  induction s as [|x s IH]; simpl; [exists []; reflexivity|].
  destruct (is_space x); [destruct IH as [p Hp]; exists (x :: p); simpl; congruence|].
  exists []; reflexivity.
Qed.

Lemma trim_start_head (s : jstr) :
  match trim_start s with x :: _ => is_space x = false | [] => True end.
Proof.
  induction s as [|x s IH]; simpl; [exact I|].
  destruct (is_space x) eqn:E; [exact IH|exact E].
Qed.

Lemma trim_start_nospace (s : jstr) :
  match s with x :: _ => is_space x = false | [] => True end -> trim_start s = s.
Proof. destruct s as [|x s]; simpl; [reflexivity|]. intros H; rewrite H; reflexivity. Qed.

Lemma trim_start_idem (s : jstr) : trim_start (trim_start s) = trim_start s.
Proof. apply trim_start_nospace, trim_start_head. Qed.

(** [trim] is idempotent: its result has no whitespace at either end. *)
Lemma trim_idem (s : jstr) : trim (trim s) = trim s.
Proof.
  unfold trim, trim_end.
  set (u := trim_start s).
  assert (Hu : match u with x :: _ => is_space x = false | [] => True end)
    by apply trim_start_head.
  destruct (trim_start_suffix (rev u)) as [p Hp].
  assert (Hpre : u = rev (trim_start (rev u)) ++ rev p).
  { rewrite <- (rev_involutive u) at 1. rewrite Hp at 1. rewrite rev_app_distr. reflexivity. }
  assert (Hs : trim_start (rev (trim_start (rev u))) = rev (trim_start (rev u))).
  { apply trim_start_nospace.
    destruct (rev (trim_start (rev u))) as [|y w] eqn:E; [exact I|].
    rewrite Hpre in Hu. simpl in Hu. exact Hu. }
  rewrite Hs, rev_involutive, trim_start_idem. reflexivity.
Qed.

Lemma trim_start_In (s : jstr) (x : char) : In x (trim_start s) -> In x s.
Proof.
  destruct (trim_start_suffix s) as [p Hp]. intros H. rewrite Hp. apply in_or_app; auto.
Qed.

Lemma trim_In (s : jstr) (x : char) : In x (trim s) -> In x s.
Proof.
  unfold trim, trim_end. intros H. apply trim_start_In.
  apply in_rev, trim_start_In in H. apply in_rev in H. exact H.
Qed.

Lemma trim_start_length (s : jstr) : List.length (trim_start s) <= List.length s.
Proof.
  destruct (trim_start_suffix s) as [p Hp]. rewrite Hp at 2. rewrite length_app. lia.
Qed.

Lemma trim_length (s : jstr) : List.length (trim s) <= List.length s.
Proof.
  unfold trim, trim_end. rewrite length_rev.
  pose proof (trim_start_length (rev (trim_start s))). rewrite length_rev in H.
  pose proof (trim_start_length s). lia.
Qed.

Lemma firstn_In' (n : nat) (s : jstr) (x : char) : In x (firstn n s) -> In x s.
Proof. intros H. rewrite <- (firstn_skipn n s). apply in_or_app; auto. Qed.

Lemma skipn_In' (n : nat) (s : jstr) (x : char) : In x (skipn n s) -> In x s.
Proof. intros H. rewrite <- (firstn_skipn n s). apply in_or_app; auto. Qed.

(** Deleting the first match of a pattern adds no character. *)
Lemma replace1_empty_In (ic : bool) (r : regex) (s : jstr) (x : char) :
  In x (replace1 ic r s by_empty) -> In x s.
Proof.
  unfold replace1. destruct (exec ic r s) as [mt|]; [|auto].
  intros H. apply in_app_or in H as [H|H]; [eapply firstn_In'; eauto|].
  simpl in H. eapply skipn_In'; eauto.
Qed.

End StringFacts.

(** ** What a match consumes *)
Section MatcherSound.
Variable inp : jstr.
Variable ic : bool.

(** A successful match starting at [i] hands the continuation a position
    between [i] and the end of the input. *)
Lemma m_sound (r : regex) : forall k i cs res,
  i <= List.length inp -> m inp ic r k i cs = Some res ->
  exists j cs', i <= j <= List.length inp /\ k j cs' = Some res.
Proof.
  induction r as [|p|r1 IH1 r2 IH2|r1 IH1 r2 IH2|g r1 IH|n r1 IH| | | ];
    intros k i cs res Hi Hm.
  - simpl in Hm. exists i, cs. split; [lia|exact Hm].
  - simpl in Hm. destruct (nth_error inp i) as [x|] eqn:E; [|discriminate].
    destruct (cmatch ic p x); [|discriminate].
    assert (i < List.length inp) by (apply nth_error_Some; congruence).
    exists (S i), cs. split; [lia|exact Hm].
  - simpl in Hm. destruct (IH1 _ _ _ _ Hi Hm) as (j1 & cs1 & Hj1 & H1).
    destruct (IH2 _ _ _ _ (proj2 Hj1) H1) as (j2 & cs2 & Hj2 & H2).
    exists j2, cs2. split; [lia|exact H2].
  - simpl in Hm. destruct (m inp ic r1 k i cs) as [res1|] eqn:E.
    + inversion Hm; subst. eauto.
    + eauto.
  - set (GO := fix go (n : nat) (i : nat) (cs : caps) {struct n} : option (nat * caps) :=
        match n with
        | O => k i cs
        | S n' =>
            if g then
              match m inp ic r1 (fun j cs' => if Nat.ltb i j then go n' j cs' else None) i cs with
              | Some res => Some res
              | None => k i cs
              end
            else
              match k i cs with
              | Some res => Some res
              | None => m inp ic r1 (fun j cs' => if Nat.ltb i j then go n' j cs' else None) i cs
              end
        end).
    change (GO (S (List.length inp - i)) i cs = Some res) in Hm.
    revert Hm. generalize (S (List.length inp - i)) as n.
    intros n. revert i cs Hi. induction n as [|n IHn]; intros i cs Hi Hm.
    + exists i, cs. split; [lia|exact Hm].
    + change (GO (S n) i cs) with
        (if g then
           match m inp ic r1 (fun j cs' => if Nat.ltb i j then GO n j cs' else None) i cs with
           | Some res => Some res
           | None => k i cs
           end
         else
           match k i cs with
           | Some res => Some res
           | None => m inp ic r1 (fun j cs' => if Nat.ltb i j then GO n j cs' else None) i cs
           end) in Hm.
      destruct g.
      * destruct (m inp ic r1 _ i cs) as [res1|] eqn:E.
        -- inversion Hm; subst.
           destruct (IH _ _ _ _ Hi E) as (j1 & cs1 & Hj1 & H1).
           destruct (Nat.ltb i j1) eqn:Hlt; [|discriminate].
           apply Nat.ltb_lt in Hlt.
           destruct (IHn _ _ (proj2 Hj1) H1) as (j2 & cs2 & Hj2 & H2).
           exists j2, cs2. split; [lia|exact H2].
        -- exists i, cs. split; [lia|exact Hm].
      * destruct (k i cs) as [res1|] eqn:E.
        -- inversion Hm; subst. exists i, cs. split; [lia|exact E].
        -- destruct (IH _ _ _ _ Hi Hm) as (j1 & cs1 & Hj1 & H1).
           destruct (Nat.ltb i j1) eqn:Hlt; [|discriminate].
           apply Nat.ltb_lt in Hlt.
           destruct (IHn _ _ (proj2 Hj1) H1) as (j2 & cs2 & Hj2 & H2).
           exists j2, cs2. split; [lia|exact H2].
  - simpl in Hm. destruct (IH _ _ _ _ Hi Hm) as (j & cs' & Hj & H). eauto.
  - simpl in Hm. destruct (Nat.eqb i 0); [|discriminate]. exists i, cs. split; [lia|exact Hm].
  - simpl in Hm. destruct (Nat.eqb i (List.length inp)); [|discriminate].
    exists i, cs. split; [lia|exact Hm].
  - simpl in Hm. destruct (xorb _ _); [|discriminate]. exists i, cs. split; [lia|exact Hm].
Qed.

Lemma m_needs (P : char -> bool) (r : regex) : Needs ic P r -> forall k i cs res,
  i <= List.length inp -> m inp ic r k i cs = Some res ->
  exists t x, nth_error inp t = Some x /\ P x = true.
Proof.
  induction 1 as [p Hp|r1 r2 _ IH|r1 r2 _ IH|r1 r2 _ IH1 _ IH2|n r1 _ IH];
    intros k i cs res Hi Hm; simpl in Hm.
  - destruct (nth_error inp i) as [x|] eqn:E; [|discriminate].
    destruct (cmatch ic p x) eqn:Ec; [|discriminate]. eauto.
  - eauto.
  - destruct (m_sound r1 _ _ _ _ Hi Hm) as (j & cs' & Hj & H). eapply IH; [|exact H]. lia.
  - destruct (m inp ic r1 k i cs) eqn:E; eauto.
  - eauto.
Qed.

Lemma search_from_none (r : regex) : forall fuel i,
  i + fuel <= S (List.length inp) ->
  (forall j, i <= j <= List.length inp -> match_at inp ic r j = None) ->
  search_from inp ic r i fuel = None.
Proof.
  induction fuel as [|fuel IH]; intros i Hf H; simpl; [reflexivity|].
  rewrite H by lia. apply IH; [lia|]. intros j Hj. apply H. lia.
Qed.

Lemma exec_none (r : regex) :
  (forall j, j <= List.length inp -> match_at inp ic r j = None) ->
  exec ic r inp = None.
Proof. intros H. apply search_from_none; [lia|]. intros j Hj. apply H. lia. Qed.

(** A pattern that needs a character the input lacks never matches. *)
Lemma exec_needs_none (P : char -> bool) (r : regex) :
  Needs ic P r -> (forall x, In x inp -> P x = false) -> exec ic r inp = None.
Proof.
  intros HN HP. apply exec_none. intros j Hj.
  destruct (match_at inp ic r j) as [res|] eqn:E; [|reflexivity].
  destruct (m_needs P r HN _ _ _ _ Hj E) as (t & x & Ht & Hx).
  rewrite HP in Hx; [discriminate|]. eapply nth_error_In; eauto.
Qed.

(** [s.split(re)] returns [[s]] when the separator never matches. *)
Lemma split_re_needs (P : char -> bool) (r : regex) :
  Needs ic P r -> (forall x, In x inp -> P x = false) -> Split.split_re ic r inp = [inp].
Proof.
  intros HN HP.
  assert (Hno : forall j, j <= List.length inp -> match_at inp ic r j = None).
  { intros j Hj. destruct (match_at inp ic r j) as [res|] eqn:E; [|reflexivity].
    destruct (m_needs P r HN _ _ _ _ Hj E) as (t & x & Ht & Hx).
    rewrite HP in Hx; [discriminate|]. eapply nth_error_In; eauto. }
  unfold Split.split_re.
  destruct inp as [|x s] eqn:Einp.
  - rewrite Hno; [reflexivity|simpl; lia].
  - rewrite <- Einp in *.
    assert (Hf : forall fuel q, Split.split_from ic r inp 0 q fuel = [skipn 0 inp]).
    { induction fuel as [|fuel IH]; intros q; simpl; [reflexivity|].
      destruct (Nat.leb (List.length inp) q) eqn:Hq; [reflexivity|].
      apply Nat.leb_gt in Hq. rewrite Hno by lia. apply IH. }
    rewrite Hf. reflexivity.
Qed.

End MatcherSound.

(** ** Anchored patterns *)
Section MatcherAnchored.
Variable inp : jstr.
Variable ic : bool.

Lemma m_needs_at (P : char -> bool) (r : regex) : NeedsAt ic P r -> forall k i cs res,
  m inp ic r k i cs = Some res -> exists x, nth_error inp i = Some x /\ P x = true.
Proof.
  induction 1 as [p Hp|r1 r2 _ IH|r1 r2 _ IH1 _ IH2|n r1 _ IH];
    intros k i cs res Hm; simpl in Hm.
  - destruct (nth_error inp i) as [x|] eqn:E; [|discriminate].
    destruct (cmatch ic p x) eqn:Ec; [|discriminate]. eauto.
  - eauto.
  - destruct (m inp ic r1 k i cs) eqn:E; eauto.
  - eauto.
Qed.

(** A pattern [^r] whose [r] starts with a [P] character fails on an input
    that does not start with one. *)
Lemma exec_bol_none (P : char -> bool) (r : regex) :
  NeedsAt ic P r -> match inp with x :: _ => P x = false | [] => True end ->
  exec ic (Seq Bol r) inp = None.
Proof.
  intros HN H0. apply exec_none. intros [|j] Hj.
  - unfold match_at. simpl.
    destruct (m inp ic r _ 0 []) as [res|] eqn:E; [|reflexivity].
    destruct (m_needs_at P r HN _ _ _ _ E) as (x & Hx & HP).
    destruct inp as [|y s]; [discriminate|]. simpl in Hx. inversion Hx; subst. congruence.
  - reflexivity.
Qed.

End MatcherAnchored.

Lemma cmatch_false (p : char -> bool) (x : char) : cmatch false p x = p x.
Proof. unfold cmatch. now rewrite Bool.orb_false_r. Qed.

Lemma is_digit_lower (x : char) : is_digit (lower x) = is_digit x.
Proof.
  unfold lower, is_upper, is_digit.
  destruct ((65 <=? x)%N && (x <=? 90)%N) eqn:E; [|reflexivity].
  apply Bool.andb_true_iff in E as [E1 E2]. apply N.leb_le in E1. apply N.leb_le in E2.
  transitivity false; [|symmetry];
    apply Bool.andb_false_iff; right; apply N.leb_gt; lia.
Qed.

Lemma is_digit_upper (x : char) : is_digit (upper x) = is_digit x.
Proof.
  unfold upper, is_lower, is_digit.
  destruct ((97 <=? x)%N && (x <=? 122)%N) eqn:E; [|reflexivity].
  apply Bool.andb_true_iff in E as [E1 E2]. apply N.leb_le in E1. apply N.leb_le in E2.
  transitivity false; [|symmetry];
    apply Bool.andb_false_iff; right; apply N.leb_gt; lia.
Qed.

Lemma cmatch_digit (ic : bool) (x : char) : cmatch ic is_digit x = true -> is_digit x = true.
Proof.
  unfold cmatch. rewrite is_digit_lower, is_digit_upper.
  destruct ic, (is_digit x); simpl; auto.
Qed.

Lemma in_flat_map_option {A B : Type} (f : A -> option B) (ls : list A) (y : B) :
  In y (flat_map (fun l => match f l with Some i => [i] | None => [] end) ls) ->
  exists l, In l ls /\ f l = Some y.
Proof.
  intros H. apply in_flat_map in H as (l & Hl & Hy).
  destruct (f l) eqn:E; [|destruct Hy]. destruct Hy as [<-|[]]. eauto.
Qed.

Lemma digits_val_nonneg (s : jstr) : forall acc, (0 <= acc)%Z ->
  (0 <= fst (fst (Num.digits_val acc s)))%Z.
Proof.
  induction s as [|x s IH]; intros acc Ha; simpl; [exact Ha|].
  destruct (is_digit x); simpl; [|exact Ha].
  specialize (IH (acc * 10 + Z.of_N (x - 48))%Z ltac:(lia)).
  destruct (Num.digits_val _ s) as [[v n] rest]. exact IH.
Qed.

Lemma parseFloat_nonneg (s : jstr) (q : Q) : Num.parseFloat s = Some q -> (0 <= q)%Q.
Proof.
  unfold Num.parseFloat.
  pose proof (digits_val_nonneg (trim_start s) 0 ltac:(lia)) as Hi.
  destruct (Num.digits_val 0 (trim_start s)) as [[ip ni] rest]. simpl in Hi.
  assert (Hmk : forall z d, (0 <= z)%Z -> (0 <= Qmake z d)%Q).
  { intros z d Hz. unfold Qle. simpl. lia. }
  destruct rest as [|x rest'].
  - destruct (Nat.eqb ni 0); intros H; inversion H; subst; apply Hmk; exact Hi.
  - destruct (N.eqb x 46).
    + pose proof (digits_val_nonneg rest' ip Hi) as Hf.
      destruct (Num.digits_val ip rest') as [[fp nf] r2]. simpl in Hf.
      destruct (Nat.eqb (ni + nf) 0); intros H; [discriminate|]. injection H as <-.
      assert (Hq : (0 <= Qred (Qmake fp (Pos.of_nat (Nat.pow 10 nf))))%Q).
      { apply (proj2 (Qle_comp 0%Q 0%Q (Qeq_refl 0%Q) _ _ (Qred_correct _))).
        apply Hmk. exact Hf. }
      exact Hq.
    + destruct (Nat.eqb ni 0); intros H; inversion H; subst; apply Hmk; exact Hi.
Qed.

(** Builds a [Needs] derivation, [leaf] discharging the character classes. *)
Ltac needs_tac leaf :=
  first [ apply needs_chr; leaf
        | apply needs_group; needs_tac leaf
        | apply needs_alt; needs_tac leaf
        | apply needs_seq_l; needs_tac leaf
        | apply needs_seq_r; needs_tac leaf ].

Ltac needs_at_tac leaf :=
  first [ apply needs_at_chr; leaf
        | apply needs_at_group; needs_at_tac leaf
        | apply needs_at_alt; needs_at_tac leaf
        | apply needs_at_seq; needs_at_tac leaf ].

Ltac digit_leaf := let x := fresh "x" in let Hx := fresh "Hx" in
  intros x Hx; apply cmatch_digit in Hx; exact Hx.

Ltac sep_leaf := let x := fresh "x" in let Hx := fresh "Hx" in
  intros x Hx; rewrite cmatch_false in Hx; unfold Shared.is_separator;
  first [ apply N.eqb_eq in Hx; subst x; vm_compute; reflexivity
        | simpl in Hx |- *;
          destruct (N.eqb x 45), (N.eqb x 8211), (N.eqb x 8212); simpl in *;
          solve [auto | discriminate] ].

(** ** Extra properties: the comment script's line parsers *)

(** X1: both line parsers of the comment script read each line on its
    own: the result for two texts joined by a newline is the result for
    the first followed by the result for the second. *)
Theorem comment_line_parsers_line_local (s1 s2 : jstr) :
  Tokenizer.parseIngredients (s1 ++ 10%N :: s2) =
    Tokenizer.parseIngredients s1 ++ Tokenizer.parseIngredients s2 /\
  Cleaner.parseInstructions (s1 ++ 10%N :: s2) =
    Cleaner.parseInstructions s1 ++ Cleaner.parseInstructions s2.
Proof.
  unfold Tokenizer.parseIngredients, Cleaner.parseInstructions.
  rewrite split_char_app, !flat_map_app. split; reflexivity.
Qed.

(** X2: every ingredient name the tokenizer returns is trimmed: it starts
    and ends with a non-whitespace character. *)
Theorem parseIngredients_names_trimmed (text : jstr) (ing : Ingredient) :
  In ing (Tokenizer.parseIngredients text) -> trim (name ing) = name ing.
Proof.
  intros H. apply in_flat_map_option in H as (line & _ & H).
  revert H. unfold Tokenizer.parse_line.
  destruct (Nat.ltb _ 3); [discriminate|].
  destruct (test true headerPattern _); [discriminate|].
  destruct (extract_quantity _) as [q c1]. destruct (extract_unit c1) as [u c2].
  destruct (extract_notes c2) as [nt c3].
  destruct (trim c3) as [|y w] eqn:E; [discriminate|].
  intros H; injection H as <-. simpl. rewrite <- E. apply trim_idem.
Qed.

Lemma parseIngredients_names_trimmed_witness :
  In {| name := str "flour"; quantity := None; unit := Some (str "cup");
        notes := None |} (Tokenizer.parseIngredients (str "- cup flour")) /\
  trim (str "flour") = str "flour".
Proof.
  split; [vm_compute; left; reflexivity|].
  apply (parseIngredients_names_trimmed (str "- cup flour")
           {| name := str "flour"; quantity := None; unit := Some (str "cup"); notes := None |}).
  vm_compute. left. reflexivity.
Defined.

(** X3: a line with no digit gets no quantity: the range, fraction and
    number patterns each need a digit. *)
Theorem parse_line_no_digit_no_quantity (line : jstr) (ing : Ingredient) :
  (forall x, In x line -> is_digit x = false) ->
  Tokenizer.parse_line line = Some ing -> quantity ing = None.
Proof.
  intros Hd. unfold Tokenizer.parse_line.
  destruct (Nat.ltb _ 3); [discriminate|].
  destruct (test true headerPattern _); [discriminate|].
  set (cleaned := replace1 false bulletPattern (trim line) by_empty).
  assert (Hc : forall x, In x cleaned -> is_digit x = false).
  { intros x Hx. apply Hd, trim_In. eapply replace1_empty_In. exact Hx. }
  assert (Hq : extract_quantity cleaned = (None, cleaned)).
  { unfold extract_quantity.
    rewrite (exec_needs_none cleaned false is_digit rangePattern); [| |exact Hc].
    2:{ cbv [rangePattern decimal seqs plus digit opt star]. needs_tac digit_leaf. }
    rewrite (exec_needs_none cleaned false is_digit fractionPattern); [| |exact Hc].
    2:{ cbv [fractionPattern seqs plus digit opt star]. needs_tac digit_leaf. }
    rewrite (exec_needs_none cleaned false is_digit (Seq Bol numberPattern)); [| |exact Hc].
    2:{ cbv [numberPattern decimal seqs plus digit opt star]. needs_tac digit_leaf. }
    reflexivity. }
  rewrite Hq. cbv beta iota.
  destruct (extract_unit cleaned) as [u c2]. destruct (extract_notes c2) as [nt c3].
  destruct (trim c3); [discriminate|]. intros H; injection H as <-. reflexivity.
Qed.

Lemma parse_line_no_digit_no_quantity_witness :
  Tokenizer.parse_line (str "a pinch of salt") =
    Some {| name := str "a pinch of salt"; quantity := None; unit := None; notes := None |} /\
  quantity {| name := str "a pinch of salt"; quantity := None; unit := None; notes := None |}
    = None.
Proof.
  split; [vm_compute; reflexivity|].
  apply (parse_line_no_digit_no_quantity (str "a pinch of salt")).
  - intros x Hx. repeat (destruct Hx as [<-|Hx]; [reflexivity|]). destruct Hx.
  - vm_compute. reflexivity.
Defined.

Lemma extract_unit_in_mem (us : list jstr) (cl u r : jstr) :
  extract_unit_in us cl = (Some u, r) -> In u us.
Proof.
  induction us as [|u0 us IH]; simpl; [discriminate|].
  destruct (test true (unitRegex u0) (toLowerCase cl)).
  - intros H; injection H as <- _. left; reflexivity.
  - intros H. right. apply IH; exact H.
Qed.

(** X4: the unit the tokenizer reports is always one of the spellings of
    its [units] list; it never makes one up. *)
Theorem parse_line_unit_listed (line u : jstr) (ing : Ingredient) :
  Tokenizer.parse_line line = Some ing -> unit ing = Some u -> In u units.
Proof.
  unfold Tokenizer.parse_line.
  destruct (Nat.ltb _ 3); [discriminate|].
  destruct (test true headerPattern _); [discriminate|].
  destruct (extract_quantity _) as [q c1].
  destruct (extract_unit c1) as [uo c2] eqn:Eu. destruct (extract_notes c2) as [nt c3].
  destruct (trim c3); [discriminate|]. intros H; injection H as <-. intros Hu.
  simpl in Hu. subst uo. eapply extract_unit_in_mem. exact Eu.
Qed.

Lemma parse_line_unit_listed_witness :
  Tokenizer.parse_line (str "tbsp honey") =
    Some {| name := str "honey"; quantity := None; unit := Some (str "tbsp"); notes := None |} /\
  In (str "tbsp") units.
Proof.
  split; [vm_compute; reflexivity|].
  apply (parse_line_unit_listed (str "tbsp honey") (str "tbsp")
           {| name := str "honey"; quantity := None; unit := Some (str "tbsp"); notes := None |});
    vm_compute; reflexivity.
Defined.

Lemma extract_quantity_num_nonneg (cl : jstr) (q : Q) (r : jstr) :
  extract_quantity cl = (Some (QNum q), r) -> (0 <= q)%Q.
Proof.
  unfold extract_quantity.
  destruct (exec false rangePattern cl); [discriminate|].
  destruct (exec false fractionPattern cl); [discriminate|].
  destruct (exec false (Seq Bol numberPattern) cl) as [mt|]; [|discriminate].
  destruct (Num.parseFloat (whole cl mt)) as [num|] eqn:E; [|discriminate].
  intros H; injection H as <- _. eapply parseFloat_nonneg; exact E.
Qed.

(** X5: a numeric quantity is never negative: the number patterns have
    no sign. *)
Theorem parse_line_quantity_nonneg (line : jstr) (ing : Ingredient) (q : Q) :
  Tokenizer.parse_line line = Some ing -> quantity ing = Some (QNum q) -> (0 <= q)%Q.
Proof.
  unfold Tokenizer.parse_line.
  destruct (Nat.ltb _ 3); [discriminate|].
  destruct (test true headerPattern _); [discriminate|].
  destruct (extract_quantity _) as [qo c1] eqn:Eq.
  destruct (extract_unit c1) as [uo c2]. destruct (extract_notes c2) as [nt c3].
  destruct (trim c3); [discriminate|]. intros H; injection H as <-. intros Hq.
  simpl in Hq. subst qo. eapply extract_quantity_num_nonneg. exact Eq.
Qed.

Lemma parse_line_quantity_nonneg_witness :
  Tokenizer.parse_line (str "- 3 eggs") =
    Some {| name := str "eggs"; quantity := Some (QNum (inject_Z 3)); unit := None;
            notes := None |} /\
  (0 <= inject_Z 3)%Q.
Proof.
  split; [vm_compute; reflexivity|].
  apply (parse_line_quantity_nonneg (str "- 3 eggs")
           {| name := str "eggs"; quantity := Some (QNum (inject_Z 3)); unit := None;
              notes := None |});
    vm_compute; reflexivity.
Defined.

(** ** Extra properties: the segmenter *)
Section SegmenterExtra.
Import Segmenter.

Lemma header_step_total (st : section * sections) (l : jstr) :
  bucket_total (snd (header_step st l)) =
  bucket_total (snd st) + (if is_header l then 0 else 1).
Proof.
  destruct st as [cur s]. unfold header_step, is_header, bucket_total. simpl.
  destruct (test true ingredientsHeader _); [simpl; lia|].
  destruct (test true instructionsHeader _); [simpl; lia|].
  destruct cur; simpl; rewrite ?length_app; simpl; lia.
Qed.

Lemma fold_header_total (ls : list jstr) (st : section * sections) :
  bucket_total (snd (fold_left header_step ls st)) + List.length (filter is_header ls) =
  bucket_total (snd st) + List.length ls.
Proof.
  revert st. induction ls as [|l ls IH]; intros st; simpl; [lia|].
  specialize (IH (header_step st l)). rewrite header_step_total in IH.
  destruct (is_header l); simpl; lia.
Qed.

Lemma header_step_in (st : section * sections) (l l' : jstr) :
  (In l (s_ingredients (snd (header_step st l'))) -> In l (s_ingredients (snd st)) \/
     (l = l' /\ is_header l' = false)) /\
  (In l (s_instructions (snd (header_step st l'))) -> In l (s_instructions (snd st)) \/
     (l = l' /\ is_header l' = false)) /\
  (In l (s_general (snd (header_step st l'))) -> In l (s_general (snd st)) \/
     (l = l' /\ is_header l' = false)).
Proof.
  destruct st as [cur s]. unfold header_step, is_header. simpl.
  destruct (test true ingredientsHeader _); [simpl; auto|].
  destruct (test true instructionsHeader _); [simpl; auto|].
  destruct cur; simpl; repeat split; intros H; auto;
    apply in_app_or in H as [H|[H|[]]]; auto.
Qed.

Lemma fold_header_in (ls : list jstr) (st : section * sections) (l : jstr) :
  (In l (s_ingredients (snd (fold_left header_step ls st))) ->
     In l (s_ingredients (snd st)) \/ (In l ls /\ is_header l = false)) /\
  (In l (s_instructions (snd (fold_left header_step ls st))) ->
     In l (s_instructions (snd st)) \/ (In l ls /\ is_header l = false)) /\
  (In l (s_general (snd (fold_left header_step ls st))) ->
     In l (s_general (snd st)) \/ (In l ls /\ is_header l = false)).
Proof.
  revert st. induction ls as [|l' ls IH]; intros st; simpl; [auto|].
  destruct (IH (header_step st l')) as (I1 & I2 & I3).
  destruct (header_step_in st l l') as (S1 & S2 & S3).
  repeat split; intros H.
  - destruct (I1 H) as [H'|[H1 H2]]; [|auto].
    destruct (S1 H') as [H''|[-> H2]]; auto.
  - destruct (I2 H) as [H'|[H1 H2]]; [|auto].
    destruct (S2 H') as [H''|[-> H2]]; auto.
  - destruct (I3 H) as [H'|[H1 H2]]; [|auto].
    destruct (S3 H') as [H''|[-> H2]]; auto.
Qed.

Lemma fold_fallback_in (ls : list jstr) (s : sections) (l : jstr) :
  (In l (s_ingredients (fallback_pass ls s)) -> In l (s_ingredients s) \/ In l ls) /\
  (In l (s_instructions (fallback_pass ls s)) -> In l (s_instructions s) \/ In l ls).
Proof.
  unfold fallback_pass. revert s. induction ls as [|l' ls IH]; intros s; simpl; [auto|].
  destruct (IH (fallback_step s l')) as (I1 & I2).
  unfold fallback_step in *.
  destruct (test true measurementPattern _); [|destruct (test true verbPattern _)];
    simpl in *; split; intros H;
    first [ destruct (I1 H) as [H'|H']; [|auto]
          | destruct (I2 H) as [H'|H']; [|auto] ];
    try (apply in_app_or in H' as [H'|[<-|[]]]); auto.
Qed.

End SegmenterExtra.

(** X7: the header-based pass of the section loop drops the header lines
    and puts every other line in exactly one bucket: the three bucket
    sizes and the number of header lines add up to the number of lines. *)
Theorem header_pass_partition (lines : list jstr) :
  let s := Segmenter.header_pass lines in
  List.length (Segmenter.s_ingredients s) + List.length (Segmenter.s_instructions s) +
  List.length (Segmenter.s_general s) + List.length (filter Segmenter.is_header lines) =
  List.length lines.
Proof.
  intros s. pose proof (fold_header_total lines (Segmenter.General, Segmenter.empty_sections)).
  unfold Segmenter.bucket_total in H. simpl in H. unfold s, Segmenter.header_pass. lia.
Qed.

(** X8: the segmenter never alters or invents a line: each line of each
    bucket is a line of the comment as it was, and no line of the general
    bucket is a section header. *)
Theorem segment_buckets_are_comment_lines (comment l : jstr) :
  let s := Segmenter.segment comment in
  (In l (Segmenter.s_ingredients s) \/ In l (Segmenter.s_instructions s) \/
   In l (Segmenter.s_general s) -> In l (split_char 10%N comment)) /\
  (In l (Segmenter.s_general s) -> Segmenter.is_header l = false).
Proof.
  intros s. unfold s, Segmenter.segment.
  set (lines := split_char 10%N comment).
  destruct (fold_header_in lines (Segmenter.General, Segmenter.empty_sections) l)
    as (H1 & H2 & H3).
  unfold Segmenter.header_pass.
  set (h := snd (fold_left Segmenter.header_step lines
                           (Segmenter.General, Segmenter.empty_sections))) in *.
  assert (Hg : In l (Segmenter.s_general h) -> In l lines /\ Segmenter.is_header l = false).
  { intros H. destruct (H3 H) as [[]|H']. exact H'. }
  destruct (Segmenter.needs_fallback h).
  - destruct (fold_fallback_in lines h l) as (F1 & F2).
    rewrite fallback_pass_general. split.
    + intros [H|[H|H]].
      * destruct (F1 H) as [H'|H']; [|exact H']. destruct (H1 H') as [[]|[? ?]]; auto.
      * destruct (F2 H) as [H'|H']; [|exact H']. destruct (H2 H') as [[]|[? ?]]; auto.
      * apply Hg; exact H.
    + intros H. apply Hg; exact H.
  - split.
    + intros [H|[H|H]].
      * destruct (H1 H) as [[]|[? ?]]; auto.
      * destruct (H2 H) as [[]|[? ?]]; auto.
      * apply Hg; exact H.
    + intros H. apply Hg; exact H.
Qed.

Lemma segment_buckets_are_comment_lines_witness :
  In (str "Serve warm.") (Segmenter.s_general (Segmenter.segment (str "Serve warm."))) /\
  In (str "Serve warm.") (split_char 10%N (str "Serve warm.")) /\
  Segmenter.is_header (str "Serve warm.") = false.
Proof.
  assert (H : In (str "Serve warm.") (Segmenter.s_general (Segmenter.segment (str "Serve warm."))))
    by (vm_compute; left; reflexivity).
  split; [exact H|]. split.
  - apply (proj1 (segment_buckets_are_comment_lines (str "Serve warm.") (str "Serve warm."))).
    right; right; exact H.
  - apply (proj2 (segment_buckets_are_comment_lines (str "Serve warm.") (str "Serve warm."))).
    exact H.
Defined.

(** ** Extra properties: description *)

(** X9: the description is never the empty string; it is either a
    trimmed line of the comment longer than 30 characters, or at most 500
    characters taken from the general bucket. *)
Theorem description_shape (comment title d : jstr) :
  Comment.description (Comment.parseRecipeFromComment comment title) = Some d ->
  d <> [] /\
  ((In d (map trim (split_char 10%N comment)) /\ 30 < List.length d) \/
   List.length d <= 500).
Proof.
  unfold Comment.parseRecipeFromComment. cbn [Comment.description].
  assert (Hgen : forall g, Comment.general_description g = Some d ->
                 d <> [] /\ List.length d <= 500).
  { intros g. unfold Comment.general_description.
    destruct (firstn 500 _) as [|x w] eqn:E; [discriminate|].
    intros H; injection H as <-. split; [discriminate|].
    rewrite <- E, length_firstn. lia. }
  unfold Comment.or_else.
  destruct (Comment.first_description comment) as [[|x w]|] eqn:E.
  - intros H. destruct (Hgen _ H). auto.
  - intros H; injection H as <-. split; [discriminate|]. left.
    unfold Comment.first_description in E. apply find_some in E as [Hin Hd].
    apply filter_In in Hin as [Hin _]. split; [exact Hin|].
    unfold Comment.is_description in Hd.
    repeat (apply Bool.andb_true_iff in Hd as [Hd _]). apply Nat.ltb_lt. exact Hd.
  - intros H. destruct (Hgen _ H). auto.
Qed.

Lemma description_shape_witness :
  Comment.description (Comment.parseRecipeFromComment (str "Serves 4") (str "Stew")) =
    Some (str "Serves 4") /\
  (str "Serves 4" <> [] /\
   ((In (str "Serves 4") (map trim (split_char 10%N (str "Serves 4"))) /\
     30 < List.length (str "Serves 4")) \/ List.length (str "Serves 4") <= 500)).
Proof.
  split; [vm_compute; reflexivity|].
  apply (description_shape (str "Serves 4") (str "Stew")). vm_compute. reflexivity.
Defined.

(** ** Extra properties: the shared parser *)

Lemma flat_map_filter_option {A B : Type} (f : A -> option B) (g : A -> B) (p nb : A -> bool)
    (ls : list A) :
  (forall l, In l ls -> f l = if p l then Some (g l) else None) ->
  (forall l, p l = true -> nb l = true) ->
  flat_map (fun l => match f l with Some i => [i] | None => [] end) (filter nb ls) =
  map g (filter p ls).
Proof.
  intros Hf Hp. induction ls as [|l ls IH]; [reflexivity|].
  assert (IH' := IH (fun l' H => Hf l' (or_intror H))).
  specialize (Hf l (or_introl eq_refl)). simpl.
  destruct (p l) eqn:E.
  - rewrite (Hp l E). simpl. rewrite Hf. simpl. f_equal. exact IH'.
  - destruct (nb l); simpl; [rewrite Hf|]; exact IH'.
Qed.

Lemma trim_length_nonblank (l : jstr) :
  (3 <=? List.length (trim l)) = true -> match trim l with [] => false | _ => true end = true.
Proof. destruct (trim l); simpl; [discriminate|reflexivity]. Qed.

Lemma shared_parse_line_total (line : jstr) :
  Shared.parse_line line = None <-> List.length (trim line) < 3.
Proof.
  unfold Shared.parse_line.
  destruct (Nat.ltb (List.length (trim line)) 3) eqn:E.
  - apply Nat.ltb_lt in E. split; auto.
  - apply Nat.ltb_ge in E. split; [|lia]. intros H.
    destruct (exec false Shared.dashPattern _); [discriminate|].
    destruct (Nat.leb 2 _); [discriminate|].
    destruct (exec true Stromberg.amountPattern _); discriminate.
Qed.

(** X10: unlike the comment script, the shared ingredient parser keeps
    every line of 3 or more characters (trimmed): it returns exactly one
    ingredient per such line. *)
Theorem shared_parseIngredients_one_per_line (text : jstr) :
  List.length (Shared.parseIngredients text) =
  List.length (filter (fun l => 3 <=? List.length (trim l)) (split_char 10%N text)).
Proof.
  set (dflt := {| Stromberg.amount := []; Stromberg.pname := [] |}).
  unfold Shared.parseIngredients, Shared.nonblank_lines.
  rewrite (flat_map_filter_option Shared.parse_line
             (fun l => match Shared.parse_line l with Some i => i | None => dflt end)
             (fun l => 3 <=? List.length (trim l))).
  - apply length_map.
  - intros l _. destruct (Shared.parse_line l) eqn:E.
    + destruct (3 <=? List.length (trim l)) eqn:E3; [reflexivity|].
      apply Nat.leb_gt in E3. apply shared_parse_line_total in E3. congruence.
    + apply shared_parse_line_total in E. apply Nat.leb_gt in E. rewrite E. reflexivity.
  - apply trim_length_nonblank.
Qed.

(** X11: every amount and every name the shared ingredient parser
    returns is trimmed. *)
Theorem shared_parseIngredients_fields_trimmed (text : jstr) (ing : Stromberg.ParsedIngredient) :
  In ing (Shared.parseIngredients text) ->
  trim (Stromberg.amount ing) = Stromberg.amount ing /\
  trim (Stromberg.pname ing) = Stromberg.pname ing.
Proof.
  intros H. apply in_flat_map_option in H as (line & _ & H). revert H.
  unfold Shared.parse_line.
  destruct (Nat.ltb _ 3); [discriminate|].
  destruct (exec false Shared.dashPattern _).
  { intros H; injection H as <-. simpl. split; apply trim_idem. }
  destruct (Nat.leb 2 _).
  { intros H; injection H as <-. simpl. split; apply trim_idem. }
  destruct (exec true Stromberg.amountPattern _).
  { intros H; injection H as <-. simpl. split; apply trim_idem. }
  intros H; injection H as <-. simpl. split; [reflexivity|]. apply trim_idem.
Qed.

Lemma shared_parseIngredients_fields_trimmed_witness :
  In {| Stromberg.amount := str "2 cups"; Stromberg.pname := str "flour" |}
     (Shared.parseIngredients (str " - 2 cups - flour ")) /\
  trim (str "2 cups") = str "2 cups" /\ trim (str "flour") = str "flour".
Proof.
  split; [vm_compute; left; reflexivity|].
  apply (shared_parseIngredients_fields_trimmed (str " - 2 cups - flour ")
           {| Stromberg.amount := str "2 cups"; Stromberg.pname := str "flour" |}).
  vm_compute. left. reflexivity.
Defined.

Lemma strip_line_In (l : jstr) (x : char) : In x (Shared.strip_line (trim l)) -> In x l.
Proof.
  unfold Shared.strip_line. intros H.
  apply trim_In, replace1_empty_In, trim_In in H. exact H.
Qed.

Lemma dashPattern_needs : Needs false Shared.is_separator Shared.dashPattern.
Proof. cbv [Shared.dashPattern seqs plus star dot]. needs_tac sep_leaf. Qed.

Lemma separatorPattern_needs ic :
  ic = false -> Needs ic Shared.is_separator Stromberg.separatorPattern.
Proof.
  intros ->. cbv [Stromberg.separatorPattern seqs star lit].
  apply needs_alt; needs_tac sep_leaf.
Qed.

Lemma amountPattern_needs : Needs true is_digit Stromberg.amountPattern.
Proof. cbv [Stromberg.amountPattern seqs plus digit opt star]. needs_tac digit_leaf. Qed.

(** X12: when the ingredient text has no digit and none of the
    separators [-], U+2013, U+2014 and [:], none of the three patterns of
    the shared parser applies: each line of 3 or more characters gives an
    empty amount and its cleaned text as the name. *)
Theorem shared_parseIngredients_plain_text (text : jstr) :
  (forall x, In x text -> is_digit x = false /\ Shared.is_separator x = false) ->
  Shared.parseIngredients text =
  map (fun l => {| Stromberg.amount := []; Stromberg.pname := Shared.strip_line (trim l) |})
      (filter (fun l => 3 <=? List.length (trim l)) (split_char 10%N text)).
Proof.
  intros Ht. unfold Shared.parseIngredients, Shared.nonblank_lines.
  apply flat_map_filter_option; [|apply trim_length_nonblank].
  intros l Hl.
  assert (Hc : forall x, In x (Shared.strip_line (trim l)) ->
                 is_digit x = false /\ Shared.is_separator x = false).
  { intros x Hx. apply Ht. eapply split_char_In; [exact Hl|]. eapply strip_line_In. exact Hx. }
  unfold Shared.parse_line.
  destruct (Nat.ltb (List.length (trim l)) 3) eqn:E.
  - apply Nat.ltb_lt in E. apply Nat.leb_gt in E. rewrite E. reflexivity.
  - apply Nat.ltb_ge in E. apply Nat.leb_le in E. rewrite E.
    set (cleaned := Shared.strip_line (trim l)) in *.
    rewrite (exec_needs_none cleaned false Shared.is_separator Shared.dashPattern
               dashPattern_needs) by (intros x Hx; apply Hc; exact Hx).
    rewrite (split_re_needs cleaned false Shared.is_separator Stromberg.separatorPattern
               (separatorPattern_needs false eq_refl))
      by (intros x Hx; apply Hc; exact Hx).
    rewrite (exec_needs_none cleaned true is_digit Stromberg.amountPattern
               amountPattern_needs) by (intros x Hx; apply Hc; exact Hx).
    reflexivity.
Qed.

Lemma shared_parseIngredients_plain_text_witness :
  Shared.parseIngredients (str "* salt and pepper") =
    [{| Stromberg.amount := []; Stromberg.pname := str "salt and pepper" |}] /\
  Shared.parseIngredients (str "* salt and pepper") =
  map (fun l => {| Stromberg.amount := []; Stromberg.pname := Shared.strip_line (trim l) |})
      (filter (fun l => 3 <=? List.length (trim l)) (split_char 10%N (str "* salt and pepper"))).
Proof.
  split; [vm_compute; reflexivity|].
  apply shared_parseIngredients_plain_text.
  intros x Hx. repeat (destruct Hx as [<-|Hx]; [split; reflexivity|]). destruct Hx.
Defined.

(** X13: every step of the shared instruction parser is trimmed and
    longer than 10 characters, and there is at most one step per line. *)
Theorem shared_parseInstructions_steps (text : jstr) :
  List.length (Shared.parseInstructions text) <= List.length (split_char 10%N text) /\
  (forall st, In st (Shared.parseInstructions text) ->
     trim st = st /\ 10 < List.length st).
Proof.
  split.
  - unfold Shared.parseInstructions, Shared.nonblank_lines.
    induction (split_char 10%N text) as [|l ls IH]; simpl; [lia|].
    destruct (match trim l with [] => false | _ => true end); simpl; [|lia].
    destruct (Shared.parse_step l); simpl; lia.
  - intros st H. apply in_flat_map_option in H as (line & _ & H). revert H.
    unfold Shared.parse_step.
    destruct (Nat.ltb _ 10); [discriminate|].
    destruct (Nat.ltb 10 (List.length (Shared.clean (trim line)))) eqn:E; [|discriminate].
    intros H; injection H as <-. apply Nat.ltb_lt in E. split; [|exact E].
    unfold Shared.clean. apply trim_idem.
Qed.

Lemma shared_parseInstructions_steps_witness :
  Shared.parseInstructions (str "1. Whisk the eggs well") = [str "Whisk the eggs well"] /\
  (forall st, In st (Shared.parseInstructions (str "1. Whisk the eggs well")) ->
     trim st = st /\ 10 < List.length st).
Proof.
  split; [vm_compute; reflexivity|].
  apply (proj2 (shared_parseInstructions_steps (str "1. Whisk the eggs well"))).
Defined.

(** X14: the two line parsers of the shared module read each line on its
    own, like those of the comment script. *)
Theorem shared_line_parsers_line_local (s1 s2 : jstr) :
  Shared.parseIngredients (s1 ++ 10%N :: s2) =
    Shared.parseIngredients s1 ++ Shared.parseIngredients s2 /\
  Shared.parseInstructions (s1 ++ 10%N :: s2) =
    Shared.parseInstructions s1 ++ Shared.parseInstructions s2.
Proof.
  unfold Shared.parseIngredients, Shared.parseInstructions, Shared.nonblank_lines.
  rewrite split_char_app, filter_app, !flat_map_app. split; reflexivity.
Qed.

(** ** Extra properties: the array variant *)

(** X15: an array-variant ingredient with no separator ([-], U+2013,
    U+2014, [:]) that does not start with a digit is kept verbatim as the
    name, not even trimmed, with an empty amount. *)
Theorem stromberg_plain_ingredient_verbatim (ings dirs : list jstr) (title : jstr) :
  (forall ing, In ing ings ->
     (forall x, In x ing -> Shared.is_separator x = false) /\
     (forall x, hd_error ing = Some x -> is_digit x = false)) ->
  Comment.ingredients (Stromberg.parseStrombergRecipeLocal ings dirs title) =
  map (fun ing => {| Stromberg.amount := []; Stromberg.pname := ing |}) ings.
Proof.
  intros H. cbn [Comment.ingredients Stromberg.parseStrombergRecipeLocal].
  apply map_ext_in. intros ing Hin. destruct (H ing Hin) as [Hs Hd].
  unfold Stromberg.parse_ingredient.
  rewrite (split_re_needs ing false Shared.is_separator Stromberg.separatorPattern
             (separatorPattern_needs false eq_refl) Hs).
  simpl List.length. cbv beta iota. simpl Nat.leb. cbv iota.
  assert (Ha : exec true Stromberg.amountPattern ing = None).
  { change Stromberg.amountPattern with (Seq Bol (Group 1 (seqs [
      plus digit; opt (Seq (lit "/") (plus digit));
      opt (seqs [plus space; plus digit; lit "/"; plus digit]);
      opt (Seq (star space)
               (alts (map lit ["cup"; "tbsp"; "tsp"; "oz"; "lb"; "gram"; "ml"; "c."; "tsp.";
                               "tbsp."; "tablespoon"; "teaspoon"; "ounce"; "pound"; "kilogram";
                               "liter"; "g"; "kg"; "l"; "ml"; "cl"; "dl"]%string)));
      star space]))).
    apply (exec_bol_none ing true is_digit).
    - cbv [seqs plus digit]. needs_at_tac digit_leaf.
    - destruct ing as [|x w]; [exact I|]. apply Hd. reflexivity. }
  rewrite Ha. reflexivity.
Qed.

Lemma stromberg_plain_ingredient_verbatim_witness :
  Comment.ingredients
    (Stromberg.parseStrombergRecipeLocal [str " salt and pepper "] [] (str "Soup")) =
  map (fun ing => {| Stromberg.amount := []; Stromberg.pname := ing |}) [str " salt and pepper "].
Proof.
  apply stromberg_plain_ingredient_verbatim.
  intros ing [<-|[]]. split.
  - intros x Hx. repeat (destruct Hx as [<-|Hx]; [reflexivity|]). destruct Hx.
  - intros x Hx. injection Hx as <-. reflexivity.
Defined.

(** X16: the array variant returns at most one instruction per direction,
    each trimmed and longer than 10 characters. *)
Theorem stromberg_instructions_steps (ings dirs : list jstr) (title : jstr) :
  List.length (Comment.instructions (Stromberg.parseStrombergRecipeLocal ings dirs title))
    <= List.length dirs /\
  (forall st, In st (Comment.instructions (Stromberg.parseStrombergRecipeLocal ings dirs title)) ->
     trim st = st /\ 10 < List.length st).
Proof.
  cbn [Comment.instructions Stromberg.parseStrombergRecipeLocal]. split.
  - rewrite <- (length_map Stromberg.clean_direction dirs). apply filter_length_le.
  - intros st H. apply filter_In in H as [H Hl]. apply in_map_iff in H as (d & <- & _).
    apply Nat.ltb_lt in Hl. split; [|exact Hl].
    unfold Stromberg.clean_direction. apply trim_idem.
Qed.

Lemma stromberg_instructions_steps_witness :
  Comment.instructions
    (Stromberg.parseStrombergRecipeLocal [] [str "1. Boil the water."] (str "Tea")) =
    [str "Boil the water."] /\
  (forall st, In st (Comment.instructions
    (Stromberg.parseStrombergRecipeLocal [] [str "1. Boil the water."] (str "Tea"))) ->
     trim st = st /\ 10 < List.length st).
Proof.
  split; [vm_compute; reflexivity|].
  apply (proj2 (stromberg_instructions_steps [] [str "1. Boil the water."] (str "Tea"))).
Defined.

